(** * RAG Security Lab V2: audit log, lineage verification and ingestion pipeline

    A shallow embedding of the Python sources under [security/]:
    - [security/audit/audit_log.py]: modules [Audit] (data, hashing) and
      [AuditLogOps] ([write_event]);
    - [security/lineage/lineage_chain.py]: module [LineageChain];
    - [security/lineage/signer.py]: module [Signer];
    - [security/lineage/verify.py]: module [Verify];
    - [security/quarantine/quarantine_manager.py]: module [Quarantine];
    - [security/pipeline/rag_security_pipeline.py]: module [Pipeline];
    - [_sign_lineage_record] of [simulations/full_attack_simulation.py]:
      module [Simulation].

    Python values are modelled by the inductive type [Py.pyval]: [None],
    booleans, integers, floats (carried by their [repr]), strings, lists and
    dicts with [str] keys in insertion order.  A Python [str] is a Rocq
    [string] whose characters are read as code points below 256.  The
    library functions the sources call ([hashlib.sha256], [hmac.new],
    [hmac.compare_digest], [json.dumps], [os.path.join], [strftime]) are
    written out, so that every definition evaluates on concrete inputs.
    The semantic scorer is a collaborator outside the core and enters as a
    function from the text to the value [detect] returns.

    Effects are threaded through a state and exception monad over a
    [Runtime.Machine]: the environment (successive clock readings, the
    outcome of each file-system operation, the files), the attributes of the
    [AuditLog] object, and a journal of the calls the pipeline makes to its
    collaborators.  A raised exception keeps the state reached so far, as in
    Python. *)

From Stdlib Require Import ZArith List String Ascii Lia Bool DecimalString.
From stdpp Require Import base gmap strings list.
Import ListNotations.
Local Open Scope string_scope.
Local Open Scope list_scope.
Local Open Scope Z_scope.
Local Set Warnings "-register-all".

(* ===================================================================== *)
(** ** Bytes, code points and hexadecimal text *)
(* ===================================================================== *)

Module Bytes.

(** A byte is an integer in [0, 256). *)
Definition byte := Z.

Definition codepoint (c : ascii) : Z := Z.of_N (N_of_ascii c).

(** [str.encode("utf-8")] on code points below 256: one byte below 128,
    two bytes otherwise. *)
Definition encode_char (c : ascii) : list byte :=
  let n := codepoint c in
  if n <? 128 then [n]
  else [Z.lor 192 (Z.shiftr n 6); Z.lor 128 (Z.land n 63)].

Fixpoint encode_utf8 (s : string) : list byte :=
  match s with
  | EmptyString => []
  | String c rest => encode_char c ++ encode_utf8 rest
  end.

Definition hex_digit (n : Z) : ascii :=
  let d := Z.land n 15 in
  ascii_of_N (Z.to_N (if d <? 10 then 48 + d else 87 + d)).

Definition hex_byte (b : byte) : string :=
  String (hex_digit (Z.shiftr b 4)) (String (hex_digit b) EmptyString).

Fixpoint hex_of_bytes (bs : list byte) : string :=
  match bs with
  | [] => EmptyString
  | b :: rest => hex_byte b +:+ hex_of_bytes rest
  end.

(** the bytes written as pairs of lowercase hexadecimal digits *)
Definition nibble (c : ascii) : Z :=
  let n := codepoint c in
  if n <? 58 then n - 48 else n - 87.

Fixpoint unhex (s : string) : list byte :=
  match s with
  | String a (String b rest) => (16 * nibble a + nibble b) :: unhex rest
  | _ => []
  end.

(** [PyUnicode_IS_ASCII]: every code point is below 128. *)
Fixpoint is_ascii (s : string) : bool :=
  match s with
  | EmptyString => true
  | String c rest => (codepoint c <? 128) && is_ascii rest
  end.

(** big-endian bytes of the low [8 * n] bits of [x] *)
Fixpoint be_bytes (n : nat) (x : Z) : list byte :=
  match n with
  | O => []
  | S m => Z.land (Z.shiftr x (8 * Z.of_nat m)) 255 :: be_bytes m x
  end.

End Bytes.

(* ===================================================================== *)
(** ** hashlib.sha256 (FIPS 180-4) *)
(* ===================================================================== *)

Module SHA256.
Import Bytes.

Definition add32 (x y : Z) : Z := Z.land (x + y) 4294967295.
Definition rotr (n x : Z) : Z :=
  Z.lor (Z.shiftr x n) (Z.land (Z.shiftl x (32 - n)) 4294967295).
Definition shr (n x : Z) : Z := Z.shiftr x n.
Definition not32 (x : Z) : Z := Z.lxor x 4294967295.

Definition Ch (x y z : Z) : Z := Z.lxor (Z.land x y) (Z.land (not32 x) z).
Definition Maj (x y z : Z) : Z :=
  Z.lxor (Z.lxor (Z.land x y) (Z.land x z)) (Z.land y z).
Definition bsig0 (x : Z) : Z := Z.lxor (Z.lxor (rotr 2 x) (rotr 13 x)) (rotr 22 x).
Definition bsig1 (x : Z) : Z := Z.lxor (Z.lxor (rotr 6 x) (rotr 11 x)) (rotr 25 x).
Definition ssig0 (x : Z) : Z := Z.lxor (Z.lxor (rotr 7 x) (rotr 18 x)) (shr 3 x).
Definition ssig1 (x : Z) : Z := Z.lxor (Z.lxor (rotr 17 x) (rotr 19 x)) (shr 10 x).

Fixpoint words_of (n : nat) (bs : list byte) : list Z :=
  match n, bs with
  | S m, b0 :: b1 :: b2 :: b3 :: rest =>
      (Z.shiftl b0 24 + Z.shiftl b1 16 + Z.shiftl b2 8 + b3) :: words_of m rest
  | _, _ => []
  end.

(** the sixty-four round constants, eight words a row *)
Definition K : list Z :=
  words_of 64
    (unhex ("428a2f9871374491b5c0fbcfe9b5dba53956c25b59f111f1923f82a4ab1c5ed5"
        +:+ "d807aa9812835b01243185be550c7dc372be5d7480deb1fe9bdc06a7c19bf174"
        +:+ "e49b69c1efbe47860fc19dc6240ca1cc2de92c6f4a7484aa5cb0a9dc76f988da"
        +:+ "983e5152a831c66db00327c8bf597fc7c6e00bf3d5a7914706ca635114292967"
        +:+ "27b70a852e1b21384d2c6dfc53380d13650a7354766a0abb81c2c92e92722c85"
        +:+ "a2bfe8a1a81a664bc24b8b70c76c51a3d192e819d6990624f40e3585106aa070"
        +:+ "19a4c1161e376c082748774c34b0bcb5391c0cb34ed8aa4a5b9cca4f682e6ff3"
        +:+ "748f82ee78a5636f84c878148cc7020890befffaa4506cebbef9a3f7c67178f2")).

Record regs := Regs
  { ra : Z; rb : Z; rc : Z; rd : Z; re : Z; rf : Z; rg : Z; rh : Z }.

(** the initial hash value *)
Definition H0 : regs :=
  match words_of 8 (unhex "6a09e667bb67ae853c6ef372a54ff53a510e527f9b05688c1f83d9ab5be0cd19") with
  | [a; b; c; d; e; f; g; h] => Regs a b c d e f g h
  | _ => Regs 0 0 0 0 0 0 0 0
  end.

(** padding: 0x80, zero bytes up to 56 modulo 64, then the bit length on
    eight bytes *)
Definition pad (msg : list byte) : list byte :=
  let len := Z.of_nat (length msg) in
  msg ++ [128] ++ repeat 0 (Z.to_nat ((55 - len) mod 64)) ++ be_bytes 8 (8 * len).

(** The message schedule, most recent word first: [past] holds
    W(t-1), W(t-2), ... *)
Fixpoint schedule (n : nat) (past : list Z) : list Z :=
  match n with
  | O => past
  | S m =>
      let w := add32 (add32 (ssig1 (nth 1 past 0)) (nth 6 past 0))
                     (add32 (ssig0 (nth 14 past 0)) (nth 15 past 0)) in
      schedule m (w :: past)
  end.

Definition round (r : regs) (kw : Z * Z) : regs :=
  let t1 := add32 (add32 (add32 (rh r) (bsig1 (re r)))
                         (add32 (Ch (re r) (rf r) (rg r)) (fst kw))) (snd kw) in
  let t2 := add32 (bsig0 (ra r)) (Maj (ra r) (rb r) (rc r)) in
  Regs (add32 t1 t2) (ra r) (rb r) (rc r) (add32 (rd r) t1) (re r) (rf r) (rg r).

Definition compress (h : regs) (block : list byte) : regs :=
  let w := List.rev (schedule 48 (List.rev (words_of 16 block))) in
  let r := fold_left round (combine K w) h in
  Regs (add32 (ra h) (ra r)) (add32 (rb h) (rb r)) (add32 (rc h) (rc r))
       (add32 (rd h) (rd r)) (add32 (re h) (re r)) (add32 (rf h) (rf r))
       (add32 (rg h) (rg r)) (add32 (rh h) (rh r)).

Fixpoint blocks (n : nat) (h : regs) (bs : list byte) : regs :=
  match n with
  | O => h
  | S m => blocks m (compress h (firstn 64 bs)) (skipn 64 bs)
  end.

Definition digest (msg : list byte) : list byte :=
  let p := pad msg in
  let r := blocks (length p / 64)%nat H0 p in
  be_bytes 4 (ra r) ++ be_bytes 4 (rb r) ++ be_bytes 4 (rc r) ++ be_bytes 4 (rd r) ++
  be_bytes 4 (re r) ++ be_bytes 4 (rf r) ++ be_bytes 4 (rg r) ++ be_bytes 4 (rh r).

Definition hexdigest (msg : list byte) : string := hex_of_bytes (digest msg).

End SHA256.

(* ===================================================================== *)
(** ** hmac.new(key, msg, hashlib.sha256) (RFC 2104) *)
(* ===================================================================== *)

Module HMAC.
Import Bytes.

Definition block_key (key : list byte) : list byte :=
  let k := if (64 <? length key)%nat then SHA256.digest key else key in
  k ++ repeat 0 (64 - length k)%nat.

Definition digest (key msg : list byte) : list byte :=
  let k := block_key key in
  SHA256.digest (map (Z.lxor 92) k ++ SHA256.digest (map (Z.lxor 54) k ++ msg)).

Definition hexdigest (key msg : list byte) : string := hex_of_bytes (digest key msg).

End HMAC.

(* ===================================================================== *)
(** ** Python values, exceptions and the few built-ins the sources use *)
(* ===================================================================== *)

Module Py.

Inductive exn : Type := TypeError | KeyError | OSError.

Inductive result (A : Type) : Type :=
| Ok (a : A)
| Raise (e : exn).
Arguments Ok {A} a.
Arguments Raise {A} e.

(** The values that travel through the pipeline: JSON-like Python data.
    A dict keeps its items in insertion order, keyed by [str].  A float is
    carried by its [repr] text; its arithmetic is never needed here. *)
Inductive pyval : Type :=
| PNone
| PBool (b : bool)
| PInt (n : Z)
| PFloat (repr : string)
| PStr (s : string)
| PList (items : list pyval)
| PDict (items : list (string * pyval)).

Definition dquote : ascii := "034"%char.
Definition newline : ascii := "010"%char.

Definition is_none (v : pyval) : bool :=
  match v with PNone => true | _ => false end.

(** [bool(v)] *)
Definition truthy (v : pyval) : bool :=
  match v with
  | PNone => false
  | PBool b => b
  | PInt n => negb (n =? 0)
  | PFloat r => negb (String.eqb r "0.0" || String.eqb r "-0.0")
  | PStr s => negb (String.eqb s EmptyString)
  | PList items => match items with [] => false | _ => true end
  | PDict items => match items with [] => false | _ => true end
  end.

(** [a or b] *)
Definition py_or (a b : pyval) : pyval := if truthy a then a else b.

Fixpoint dict_get (k : string) (d : list (string * pyval)) : option pyval :=
  match d with
  | [] => None
  | (k', v) :: rest => if String.eqb k k' then Some v else dict_get k rest
  end.

(** [d[k] = v]: an existing key keeps its position, a new key goes last. *)
Fixpoint dict_set (k : string) (v : pyval) (d : list (string * pyval))
  : list (string * pyval) :=
  match d with
  | [] => [(k, v)]
  | (k', v') :: rest =>
      if String.eqb k k' then (k', v) :: rest else (k', v') :: dict_set k v rest
  end.

(** [obj[k]] for a [str] subscript *)
Definition getitem (obj : pyval) (k : string) : result pyval :=
  match obj with
  | PDict d => match dict_get k d with Some v => Ok v | None => Raise KeyError end
  | _ => Raise TypeError
  end.

(** [s.replace(a, b)] for one-character [a] and [b] *)
Fixpoint str_replace (a b : ascii) (s : string) : string :=
  match s with
  | EmptyString => EmptyString
  | String c rest =>
      String (if Ascii.eqb c a then b else c) (str_replace a b rest)
  end.

(** [str(n)] for an int *)
Definition str_of_int (n : Z) : string := NilZero.string_of_int (Z.to_int n).

(** [s.rjust(width, "0")] *)
Definition zfill (width : nat) (s : string) : string :=
  string_of_list_ascii (repeat "0"%char (width - String.length s)%nat) +:+ s.

(** [posixpath.join(a, b)] *)
Definition endswith_sep (s : string) : bool :=
  match List.rev (list_ascii_of_string s) with
  | c :: _ => Ascii.eqb c "/"%char
  | [] => false
  end.

Definition os_path_join (a b : string) : string :=
  match b with
  | String "/"%char _ => b
  | _ =>
      if String.eqb a EmptyString || endswith_sep a then a +:+ b
      else a +:+ "/" +:+ b
  end.

End Py.

(* ===================================================================== *)
(** ** json.dumps *)
(* ===================================================================== *)

Module Json.
Import Bytes Py.

Record options := Options
  { sort_keys : bool; ensure_ascii : bool; indent : option nat }.

(** [json.dumps(v)] defaults *)
Definition default_options : options := Options false true None.

Definition u_escape (c : ascii) : string :=
  "\u00" +:+ hex_byte (codepoint c).

(** One character inside a JSON string literal
    ([ESCAPE_ASCII] when [ensure_ascii], [ESCAPE] otherwise). *)
Definition escape_char (ea : bool) (c : ascii) : string :=
  let n := codepoint c in
  if n =? 34 then String "\"%char (String dquote EmptyString)
  else if n =? 92 then "\\"
  else if n =? 10 then "\n"
  else if n =? 13 then "\r"
  else if n =? 9 then "\t"
  else if n =? 8 then "\b"
  else if n =? 12 then "\f"
  else if n <? 32 then u_escape c
  else if ea && (126 <? n) then u_escape c
  else String c EmptyString.

Fixpoint escape (ea : bool) (s : string) : string :=
  match s with
  | EmptyString => EmptyString
  | String c rest => escape_char ea c +:+ escape ea rest
  end.

Definition encode_str (ea : bool) (s : string) : string :=
  String dquote (escape ea s +:+ String dquote EmptyString).

Definition encode_float (r : string) : string :=
  if String.eqb r "nan" then "NaN"
  else if String.eqb r "inf" then "Infinity"
  else if String.eqb r "-inf" then "-Infinity"
  else r.

(** [sorted(items)] on (key, text) pairs: a stable insertion sort on keys,
    which Python compares by code point. *)
Fixpoint insert_item (kv : string * string) (l : list (string * string))
  : list (string * string) :=
  match l with
  | [] => [kv]
  | kv' :: rest =>
      if String.leb (fst kv) (fst kv') then kv :: l
      else kv' :: insert_item kv rest
  end.

Definition sort_items (l : list (string * string)) : list (string * string) :=
  fold_right insert_item [] l.

(** the line break and indentation that opens level [level] *)
Definition break (o : options) (level : nat) : string :=
  match indent o with
  | None => EmptyString
  | Some k => String newline (string_of_list_ascii (repeat " "%char (k * level)))
  end.

Definition item_sep (o : options) (level : nat) : string :=
  match indent o with
  | None => ", "
  | Some _ => "," +:+ break o level
  end.

Fixpoint encode (o : options) (level : nat) (v : pyval) {struct v} : string :=
  match v with
  | PNone => "null"
  | PBool true => "true"
  | PBool false => "false"
  | PInt n => str_of_int n
  | PFloat r => encode_float r
  | PStr s => encode_str (ensure_ascii o) s
  | PList items =>
      match items with
      | [] => "[]"
      | _ =>
          "[" +:+ break o (S level)
          +:+ String.concat (item_sep o (S level)) (map (encode o (S level)) items)
          +:+ break o level +:+ "]"
      end
  | PDict items =>
      match items with
      | [] => "{}"
      | _ =>
          let enc := map (fun '(k, x) => (k, encode o (S level) x)) items in
          let enc := if sort_keys o then sort_items enc else enc in
          "{" +:+ break o (S level)
          +:+ String.concat (item_sep o (S level))
                (map (fun '(k, t) => encode_str (ensure_ascii o) k +:+ ": " +:+ t) enc)
          +:+ break o level +:+ "}"
      end
  end.

Definition dumps (o : options) (v : pyval) : string := encode o 0 v.

End Json.

(* ===================================================================== *)
(** ** Clock readings and their textual formats *)
(* ===================================================================== *)

Module Clock.
Import Py.

(** One reading of the UTC clock ([time.gmtime()], [datetime.utcnow()]).
    The system clock gives four-digit years, for which [%Y] prints the year
    as it is. *)
Record DateTime := mkDateTime
  { year : Z; month : Z; day : Z; hour : Z; minute : Z; second : Z;
    microsecond : Z }.

Definition d2 (n : Z) : string := zfill 2 (str_of_int n).
Definition d4 (n : Z) : string := zfill 4 (str_of_int n).
Definition d6 (n : Z) : string := zfill 6 (str_of_int n).

(** [time.strftime("%Y-%m-%dT%H:%M:%SZ", t)] *)
Definition strftime_audit (t : DateTime) : string :=
  d4 (year t) +:+ "-" +:+ d2 (month t) +:+ "-" +:+ d2 (day t) +:+ "T"
  +:+ d2 (hour t) +:+ ":" +:+ d2 (minute t) +:+ ":" +:+ d2 (second t) +:+ "Z".

(** [t.strftime("%Y%m%dT%H%M%SZ")] *)
Definition strftime_bundle (t : DateTime) : string :=
  d4 (year t) +:+ d2 (month t) +:+ d2 (day t) +:+ "T"
  +:+ d2 (hour t) +:+ d2 (minute t) +:+ d2 (second t) +:+ "Z".

(** [t.isoformat()]: the fraction is printed only when it is not zero *)
Definition isoformat (t : DateTime) : string :=
  d4 (year t) +:+ "-" +:+ d2 (month t) +:+ "-" +:+ d2 (day t) +:+ "T"
  +:+ d2 (hour t) +:+ ":" +:+ d2 (minute t) +:+ ":" +:+ d2 (second t)
  +:+ (if microsecond t =? 0 then EmptyString else "." +:+ d6 (microsecond t)).

End Clock.

(* ===================================================================== *)
(** ** security/lineage/lineage_chain.py *)
(* ===================================================================== *)

Module LineageChain.
Import Bytes Py.

Definition sha256_hex (content : list byte) : string := SHA256.hexdigest content.

(** The dataclass declares types for its fields but does not enforce them:
    every field holds an arbitrary value. *)
Record LineageRecord := mkLineageRecord
  { document_id : pyval;
    version : pyval;
    content_hash : pyval;
    prev_hash : pyval;
    created_at : pyval;
    author : pyval;
    source : pyval;
    signature : pyval }.

Definition required_fields : list string :=
  ["document_id"; "version"; "content_hash"; "prev_hash"; "created_at";
   "author"; "source"].

Definition field_names : list string := required_fields ++ ["signature"].

Definition mem_string (k : string) (l : list string) : bool :=
  existsb (String.eqb k) l.

(** [LineageRecord] applied to unpacked keyword arguments: the generated
    [__init__] raises [TypeError]
    on an unexpected keyword and on a missing required argument;
    [signature] defaults to [None]. *)
Definition LineageRecord_init (kwargs : list (string * pyval))
  : result LineageRecord :=
  if negb (forallb (fun kv => mem_string (fst kv) field_names) kwargs)
  then Raise TypeError
  else
    match dict_get "document_id" kwargs, dict_get "version" kwargs,
          dict_get "content_hash" kwargs, dict_get "prev_hash" kwargs,
          dict_get "created_at" kwargs, dict_get "author" kwargs,
          dict_get "source" kwargs with
    | Some d, Some v, Some c, Some p, Some t, Some a, Some s =>
        Ok (mkLineageRecord d v c p t a s
              (match dict_get "signature" kwargs with
               | Some g => g
               | None => PNone
               end))
    | _, _, _, _, _, _, _ => Raise TypeError
    end.

(** [record.__dict__] (equally [asdict(record)] on JSON-like fields) *)
Definition __dict__ (self : LineageRecord) : list (string * pyval) :=
  [("document_id", document_id self); ("version", version self);
   ("content_hash", content_hash self); ("prev_hash", prev_hash self);
   ("created_at", created_at self); ("author", author self);
   ("source", source self); ("signature", signature self)].

Definition to_json (self : LineageRecord) : string :=
  Json.dumps (Json.Options true true None) (PDict (__dict__ self)).

Definition compute_content_hash (content : string) : string :=
  sha256_hex (encode_utf8 content).

Definition core_payload (self : LineageRecord) : list (string * pyval) :=
  [("document_id", document_id self); ("version", version self);
   ("content_hash", content_hash self); ("prev_hash", prev_hash self);
   ("created_at", created_at self); ("author", author self);
   ("source", source self)].

Definition core_payload_bytes (self : LineageRecord) : list byte :=
  encode_utf8 (Json.dumps (Json.Options true true None) (PDict (core_payload self))).

(** [now] is the value [datetime.utcnow()] returns at the call. *)
Definition create_lineage_record (now : Clock.DateTime)
    (document_id content author source : string) (prev_hash : pyval)
    (version : Z) : LineageRecord :=
  let created_at := Clock.isoformat now +:+ "Z" in
  let content_hash := compute_content_hash content in
  mkLineageRecord (PStr document_id) (PInt version) (PStr content_hash)
                  prev_hash (PStr created_at) (PStr author) (PStr source) PNone.

End LineageChain.

(* ===================================================================== *)
(** ** security/lineage/signer.py *)
(* ===================================================================== *)

Module Signer.
Import Bytes Py.

Record HMACSigner := mkHMACSigner { secret_key : list byte }.

(** [HMACSigner(secret_key)] with a [str] key *)
Definition HMACSigner_init (key : string) : HMACSigner :=
  mkHMACSigner (encode_utf8 key).

(** [sign] on [bytes] content *)
Definition sign (self : HMACSigner) (content : list byte) : string :=
  HMAC.hexdigest (secret_key self) content.

(** [hmac.compare_digest(a, b)] with a [str] first argument: both must be
    [str] made of ASCII characters, anything else is a [TypeError]. *)
Definition compare_digest (a : string) (b : pyval) : result bool :=
  match b with
  | PStr s =>
      if is_ascii a && is_ascii s then Ok (String.eqb a s) else Raise TypeError
  | _ => Raise TypeError
  end.

Definition verify (self : HMACSigner) (content : list byte) (signature : pyval)
  : result bool :=
  let expected := sign self content in
  compare_digest expected signature.

End Signer.

(* ===================================================================== *)
(** ** security/lineage/verify.py *)
(* ===================================================================== *)

Module Verify.
Import Bytes Py LineageChain.

Record LineageVerifier := mkLineageVerifier { signer : Signer.HMACSigner }.

(** [a == v] for a [str] [a] *)
Definition str_eq (a : string) (v : pyval) : bool :=
  match v with
  | PStr s => String.eqb a s
  | _ => false
  end.

Definition verify_content_hash (self : LineageVerifier)
    (record : LineageRecord) (content : string) : bool :=
  let actual_hash := compute_content_hash content in
  str_eq actual_hash (content_hash record).

Definition verify_signature (self : LineageVerifier) (record : LineageRecord)
  : result bool :=
  if is_none (signature record) then Ok false
  else
    let payload := core_payload_bytes record in
    Signer.verify (signer self) payload (signature record).

Definition verify_record (self : LineageVerifier) (record : LineageRecord)
    (content : string) : result (bool * string) :=
  if negb (verify_content_hash self record content)
  then Ok (false, "Content hash mismatch.")
  else
    match verify_signature self record with
    | Raise e => Raise e
    | Ok false => Ok (false, "Invalid signature.")
    | Ok true => Ok (true, "Lineage and integrity verified.")
    end.

End Verify.

(* ===================================================================== *)
(** ** security/audit/audit_log.py: data and hashing *)
(* ===================================================================== *)

Module Audit.
Import Bytes Py.

Definition sha256_hex (data : list byte) : string := SHA256.hexdigest data.

Record AuditLogEntry := mkAuditLogEntry
  { index : Z;
    timestamp : string;
    event_type : string;
    document_id : string;
    stage : string;
    status : string;
    reason : string;
    details : pyval;
    prev_hash : pyval;
    entry_hash : pyval }.

(** [dataclasses.asdict(entry)]: the fields in declaration order *)
Definition asdict (e : AuditLogEntry) : list (string * pyval) :=
  [("index", PInt (index e)); ("timestamp", PStr (timestamp e));
   ("event_type", PStr (event_type e)); ("document_id", PStr (document_id e));
   ("stage", PStr (stage e)); ("status", PStr (status e));
   ("reason", PStr (reason e)); ("details", details e);
   ("prev_hash", prev_hash e); ("entry_hash", entry_hash e)].

(** The attributes of an [AuditLog] object. *)
Record AuditLog := mkAuditLog
  { path : string;
    _last_hash : pyval;
    _counter : Z }.

(** [AuditLog(path)] *)
Definition AuditLog_init (path : string) : AuditLog := mkAuditLog path PNone 0.

Definition _compute_entry_hash (entry_dict : list (string * pyval)) : string :=
  let payload := encode_utf8 (Json.dumps (Json.Options true true None) (PDict entry_dict)) in
  sha256_hex payload.

(** the line [write_event] appends for a finished entry dict *)
Definition line_of (entry_dict : list (string * pyval)) : string :=
  Json.dumps (Json.Options false false None) (PDict entry_dict)
  +:+ String newline EmptyString.

End Audit.

(* ===================================================================== *)
(** ** The machine: clock, file system, the audit log object, call journal *)
(* ===================================================================== *)

Module Runtime.
Import Py.

(** The environment of a run.  [clock] gives the successive readings of the
    UTC clock and [disk] the outcome of the successive file-system
    operations ([false]: the operation raises [OSError]); [ticks] and
    [io_ops] count the readings and operations made so far. *)
Record World := mkWorld
  { clock : nat -> Clock.DateTime;
    ticks : nat;
    disk : nat -> bool;
    io_ops : nat;
    files : gmap string string;
    dirs : gset string }.

(** Calls the pipeline makes to its collaborators, with what they
    returned, in the order they completed. *)
Inductive Call : Type :=
| CallWriteEvent (event_type document_id stage status reason : string)
    (details : pyval) (ret : result unit)
| CallVerifyRecord (record : LineageChain.LineageRecord) (content : string)
    (ret : result (bool * string))
| CallDetect (content : string) (ret : result pyval)
| CallSaveEvidenceBundle (document_id content reason : string)
    (lineage_record detection_scores metadata : pyval) (ret : result string).

Record Machine := mkMachine
  { world : World;
    audit_log : Audit.AuditLog;
    journal : list Call }.

(** Computations that read and write the machine and may raise. *)
Definition M (A : Type) : Type := Machine -> result A * Machine.

Definition ret {A} (a : A) : M A := fun m => (Ok a, m).

Definition bind {A B} (c : M A) (k : A -> M B) : M B :=
  fun m =>
    match c m with
    | (Ok a, m') => k a m'
    | (Raise e, m') => (Raise e, m')
    end.

Definition lift {A} (r : result A) : M A := fun m => (r, m).

Definition raise {A} (e : exn) : M A := lift (Raise e).

Definition get_world : M World := fun m => (Ok (world m), m).
Definition put_world (w : World) : M unit :=
  fun m => (Ok tt, mkMachine w (audit_log m) (journal m)).
Definition get_audit : M Audit.AuditLog := fun m => (Ok (audit_log m), m).
Definition put_audit (a : Audit.AuditLog) : M unit :=
  fun m => (Ok tt, mkMachine (world m) a (journal m)).

(** run [c] and enter the call, with its outcome, in the journal *)
Definition traced {A} (mk : result A -> Call) (c : M A) : M A :=
  fun m =>
    let '(r, m') := c m in
    (r, mkMachine (world m') (audit_log m') (journal m' ++ [mk r])).

End Runtime.

Notation "x <- c ;; k" := (Runtime.bind c (fun x => k))
  (at level 100, c at next level, k at level 200, right associativity).

Module Sys.
Import Py Runtime.

(** read the UTC clock *)
Definition now : M Clock.DateTime :=
  w <- get_world ;;
  _ <- put_world (mkWorld (clock w) (S (ticks w)) (disk w) (io_ops w)
                          (files w) (dirs w)) ;;
  ret (clock w (ticks w)).

(** one file-system operation: it succeeds or raises [OSError] as the
    environment decides *)
Definition io_op (effect : World -> World) : M unit :=
  w <- get_world ;;
  let w1 := mkWorld (clock w) (ticks w) (disk w) (S (io_ops w)) (files w) (dirs w) in
  if disk w (io_ops w)
  then put_world (effect w1)
  else (_ <- put_world w1 ;; raise OSError).

Definition read_file (w : World) (path : string) : string :=
  match files w !! path with
  | Some text => text
  | None => EmptyString
  end.

Definition set_file (path text : string) (w : World) : World :=
  mkWorld (clock w) (ticks w) (disk w) (io_ops w) (<[path := text]> (files w)) (dirs w).

(** [os.makedirs(path, exist_ok=True)] *)
Definition makedirs (path : string) : M unit :=
  io_op (fun w => mkWorld (clock w) (ticks w) (disk w) (io_ops w) (files w)
                          ({[path]} ∪ dirs w)).

(** [with open(path, "a") as f: f.write(text)] *)
Definition append_file (path text : string) : M unit :=
  io_op (fun w => set_file path (read_file w path +:+ text) w).

(** [with open(path, "w") as f: f.write(text)] *)
Definition write_file (path text : string) : M unit :=
  io_op (set_file path text).

End Sys.

(* ===================================================================== *)
(** ** security/audit/audit_log.py: write_event *)
(* ===================================================================== *)

Module AuditLogOps.
Import Py Runtime Audit.

(** [self._last_hash = h] *)
Definition set_last_hash (h : pyval) : M unit :=
  a <- get_audit ;;
  put_audit (mkAuditLog (path a) h (_counter a)).

(** [self._counter += 1] *)
Definition incr_counter : M unit :=
  a <- get_audit ;;
  put_audit (mkAuditLog (path a) (_last_hash a) (_counter a + 1)).

Definition write_event (event_type document_id stage status reason : string)
    (details : pyval) : M unit :=
  t <- Sys.now ;;
  let ts := Clock.strftime_audit t in
  self <- get_audit ;;
  let entry :=
    mkAuditLogEntry (_counter self) ts event_type document_id stage status
                    reason details (_last_hash self) PNone in
  let entry_dict := asdict entry in
  let entry_dict :=
    dict_set "entry_hash" (PStr (_compute_entry_hash entry_dict)) entry_dict in
  (* Update chain head *)
  h <- lift (getitem (PDict entry_dict) "entry_hash") ;;
  _ <- set_last_hash h ;;
  _ <- incr_counter ;;
  Sys.append_file (path self) (line_of entry_dict).

End AuditLogOps.

(* ===================================================================== *)
(** ** security/quarantine/quarantine_manager.py *)
(* ===================================================================== *)

Module Quarantine.
Import Py Runtime.

Record QuarantineManager := mkQuarantineManager { quarantine_dir : string }.

(** [QuarantineManager(quarantine_dir)] *)
Definition QuarantineManager_init (quarantine_dir : string) : M QuarantineManager :=
  _ <- Sys.makedirs quarantine_dir ;;
  ret (mkQuarantineManager quarantine_dir).

Definition bundle_name (t : Clock.DateTime) (document_id : string) : string :=
  let timestamp := Clock.strftime_bundle t in
  let safe_id := str_replace " "%char "_"%char document_id in
  timestamp +:+ "_" +:+ safe_id.

Definition _bundle_path (self : QuarantineManager) (document_id : string) : M string :=
  t <- Sys.now ;;
  let path := os_path_join (quarantine_dir self) (bundle_name t document_id) in
  _ <- Sys.makedirs path ;;
  ret path.

Definition _write_text (path content : string) : M unit :=
  Sys.write_file path content.

(** [json.dump(data, f, indent=2, ensure_ascii=False, default=default)];
    the [default] hook is never reached on JSON-like data. *)
Definition _write_json (path : string) (data : pyval) : M unit :=
  Sys.write_file path (Json.dumps (Json.Options false false (Some 2%nat)) data).

Definition save_evidence_bundle (self : QuarantineManager)
    (document_id content reason : string)
    (lineage_record detection_scores metadata : pyval) : M string :=
  bundle_path <- _bundle_path self document_id ;;
  (* content *)
  _ <- _write_text (os_path_join bundle_path "content.txt") content ;;
  (* reason *)
  _ <- _write_text (os_path_join bundle_path "reason.txt") reason ;;
  (* lineage record *)
  _ <- (if truthy lineage_record
        then _write_json (os_path_join bundle_path "lineage_record.json") lineage_record
        else ret tt) ;;
  (* semantic / detection scores *)
  _ <- (if truthy detection_scores
        then _write_json (os_path_join bundle_path "detection_scores.json") detection_scores
        else ret tt) ;;
  (* metadata *)
  _ <- (if truthy metadata
        then _write_json (os_path_join bundle_path "metadata.json") metadata
        else ret tt) ;;
  ret bundle_path.

End Quarantine.

(* ===================================================================== *)
(** ** security/pipeline/rag_security_pipeline.py *)
(* ===================================================================== *)

Module Pipeline.
Import Py Runtime LineageChain.

(** The semantic scorer is an external collaborator: the pipeline only
    needs what [detect(content)] returns. *)
Record SemanticScanner := mkSemanticScanner { detect : string -> pyval }.

(** The pipeline object; its [audit_log] is the machine's audit log. *)
Record RAGSecurityPipeline := mkRAGSecurityPipeline
  { lineage_verifier : Verify.LineageVerifier;
    semantic_scanner : SemanticScanner;
    quarantine_manager : Quarantine.QuarantineManager }.

(** What a caller may pass as [lineage_record]: a [LineageRecord] object or
    any other value ([None], a dict, a string, ...). *)
Inductive lineage_input : Type :=
| InRecord (r : LineageRecord)
| InValue (v : pyval).

Definition input_is_none (x : lineage_input) : bool :=
  match x with
  | InValue PNone => true
  | _ => false
  end.

Definition is_Some_b {A} (o : option A) : bool :=
  match o with Some _ => true | None => false end.

Record Verdict := mkVerdict
  { status : string;
    reason : string;
    bundle_path : option string;
    semantic_scores : option pyval }.

Definition _normalize_lineage_record (lineage_record : lineage_input)
  : result (option LineageRecord) :=
  match lineage_record with
  | InValue PNone => Ok None
  | InRecord r => Ok (Some r)
  | InValue (PDict d) =>
      match LineageRecord_init d with
      | Ok r => Ok (Some r)
      | Raise TypeError => Ok None
      | Raise e => Raise e
      end
  | InValue _ => Ok None
  end.

(** The call sites of the collaborators: each call is run and entered in
    the journal with what it returned. *)
Definition audit_write_event (event_type document_id stage status reason : string)
    (details : pyval) : M unit :=
  traced (CallWriteEvent event_type document_id stage status reason details)
         (AuditLogOps.write_event event_type document_id stage status reason details).

Definition quarantine_save_evidence_bundle (self : RAGSecurityPipeline)
    (document_id content reason : string)
    (lineage_record detection_scores metadata : pyval) : M string :=
  traced (CallSaveEvidenceBundle document_id content reason lineage_record
                                 detection_scores metadata)
         (Quarantine.save_evidence_bundle (quarantine_manager self) document_id
            content reason lineage_record detection_scores metadata).

Definition verifier_verify_record (self : RAGSecurityPipeline) (record : LineageRecord)
    (content : string) : M (bool * string) :=
  traced (CallVerifyRecord record content)
         (lift (Verify.verify_record (lineage_verifier self) record content)).

Definition scanner_detect (self : RAGSecurityPipeline) (content : string) : M pyval :=
  traced (CallDetect content) (ret (detect (semantic_scanner self) content)).

(** [normalized_record.__dict__ if normalized_record else None] *)
Definition record_snapshot (normalized_record : option LineageRecord) : pyval :=
  match normalized_record with
  | Some r => PDict (__dict__ r)
  | None => PNone
  end.

(** STEP 2 and the final accept *)
Definition semantic_stage (self : RAGSecurityPipeline)
    (document_id content : string) (normalized_record : option LineageRecord)
    (metadata : pyval) : M Verdict :=
  semantic_result <- scanner_detect self content ;;
  suspicious <- lift (getitem semantic_result "is_suspicious") ;;
  if truthy suspicious then
    _ <- audit_write_event "semantic_fail" document_id "semantic" "quarantined"
           "Semantic anomaly detected" (PDict [("scores", semantic_result)]) ;;
    bundle_path <- quarantine_save_evidence_bundle self document_id content
           "Semantic anomaly detected." (record_snapshot normalized_record)
           semantic_result (py_or metadata (PDict [("stage", PStr "semantic")])) ;;
    ret (mkVerdict "quarantined" "Semantic anomaly." (Some bundle_path)
                   (Some semantic_result))
  else
    _ <- audit_write_event "semantic_ok" document_id "semantic" "accepted"
           "Semantic clean" (PDict [("scores", semantic_result)]) ;;
    _ <- audit_write_event "accept" document_id "pipeline_end" "accepted"
           "Document fully clean" (PDict [("scores", semantic_result)]) ;;
    ret (mkVerdict "accepted" "Clean document." None (Some semantic_result)).

(** STEP 1, entered with a normalized record *)
Definition lineage_stage (self : RAGSecurityPipeline)
    (document_id content : string) (normalized_record : LineageRecord)
    (metadata : pyval) : M Verdict :=
  r <- verifier_verify_record self normalized_record content ;;
  let '(ok, reason) := r in
  if negb ok then
    _ <- audit_write_event "lineage_fail" document_id "lineage" "quarantined" reason
           (PDict [("lineage_record", PDict (__dict__ normalized_record))]) ;;
    bundle_path <- quarantine_save_evidence_bundle self document_id content
           ("Lineage/Integrity failed: " +:+ reason)
           (PDict (__dict__ normalized_record)) PNone
           (py_or metadata (PDict [("stage", PStr "lineage")])) ;;
    ret (mkVerdict "quarantined" reason (Some bundle_path) None)
  else
    _ <- audit_write_event "lineage_ok" document_id "lineage" "accepted" "Lineage valid"
           (PDict [("version", version normalized_record)]) ;;
    semantic_stage self document_id content (Some normalized_record) metadata.

Definition process_document (self : RAGSecurityPipeline)
    (document_id content : string) (lineage_record : lineage_input)
    (metadata : pyval) : M Verdict :=
  _ <- audit_write_event "ingest_start" document_id "start" "processing"
         "Document ingest started"
         (PDict [("metadata", py_or metadata (PDict []))]) ;;
  (* STEP 0: lineage normalize *)
  normalized_record <- lift (_normalize_lineage_record lineage_record) ;;
  if negb (input_is_none lineage_record) && negb (is_Some_b normalized_record)
  then
    match lineage_record with
    | InValue raw =>
        _ <- audit_write_event "lineage_fail" document_id "lineage_deserialization"
               "quarantined" "Invalid lineage structure"
               (PDict [("raw_lineage", raw)]) ;;
        bundle_path <- quarantine_save_evidence_bundle self document_id content
               "Lineage record deserialization failure." raw PNone
               (py_or metadata (PDict [("stage", PStr "lineage_deserialization")])) ;;
        ret (mkVerdict "quarantined" "Invalid lineage record structure."
                       (Some bundle_path) None)
    | InRecord _ =>
        (* [json.dumps] cannot serialise a dataclass instance *)
        raise TypeError
    end
  else
    (* STEP 1: lineage verify *)
    match normalized_record with
    | Some r => lineage_stage self document_id content r metadata
    | None => semantic_stage self document_id content None metadata
    end.

End Pipeline.

(* ===================================================================== *)
(** ** Vocabulary of the properties *)
(* ===================================================================== *)

Module AuditSpec.
Import Py Runtime Audit.

(** The arguments of one [write_event] call. *)
Record Event := mkEvent
  { ev_type : string; ev_document : string; ev_stage : string;
    ev_status : string; ev_reason : string; ev_details : pyval }.

Definition write (ev : Event) : M unit :=
  AuditLogOps.write_event (ev_type ev) (ev_document ev) (ev_stage ev)
    (ev_status ev) (ev_reason ev) (ev_details ev).

(** successive [write_event] calls *)
Fixpoint write_events (evs : list Event) : M unit :=
  match evs with
  | [] => ret tt
  | ev :: rest => _ <- write ev ;; write_events rest
  end.

(** the entry [write_event] builds in machine [m], before it is hashed *)
Definition draft (m : Machine) (ev : Event) : AuditLogEntry :=
  mkAuditLogEntry (_counter (audit_log m))
    (Clock.strftime_audit (clock (world m) (ticks (world m))))
    (ev_type ev) (ev_document ev) (ev_stage ev) (ev_status ev) (ev_reason ev)
    (ev_details ev) (_last_hash (audit_log m)) PNone.

Definition with_hash (h : pyval) (e : AuditLogEntry) : AuditLogEntry :=
  mkAuditLogEntry (index e) (timestamp e) (event_type e) (document_id e)
    (stage e) (status e) (reason e) (details e) (prev_hash e) h.

(** the entry as stored: the draft with its digest filled in *)
Definition sealed (e : AuditLogEntry) : AuditLogEntry :=
  with_hash (PStr (_compute_entry_hash (asdict e))) e.


(** recomputation by a reader of the log: blank the hash field, hash *)
Definition recompute_hash (stored : list (string * pyval)) : string :=
  _compute_entry_hash (dict_set "entry_hash" PNone stored).


Definition enc (v : pyval) : string :=
  Json.encode (Json.Options true true None) 1 v.



Definition carries (ev : Event) (e : AuditLogEntry) : Prop :=
  event_type e = ev_type ev /\ document_id e = ev_document ev /\
  stage e = ev_stage ev /\ status e = ev_status ev /\
  reason e = ev_reason ev /\ details e = ev_details ev.

(** entries numbered from [i], each linked to the hash before it *)
Fixpoint chained (prev : pyval) (i : Z) (es : list AuditLogEntry) : Prop :=
  match es with
  | [] => True
  | e :: rest =>
      index e = i /\ prev_hash e = prev /\
      entry_hash e = PStr (recompute_hash (asdict e)) /\
      chained (entry_hash e) (i + 1) rest
  end.

Definition lines (es : list AuditLogEntry) : string :=
  String.concat EmptyString (map (fun e => line_of (asdict e)) es).

(** the machine after a [write_event] whose append did or did not succeed *)
Definition advanced (m : Machine) (e : AuditLogEntry) (appended : bool) : Machine :=
  let w := world m in
  let a := audit_log m in
  let w1 := mkWorld (clock w) (S (ticks w)) (disk w) (S (io_ops w)) (files w) (dirs w) in
  mkMachine
    (if appended
     then Sys.set_file (path a) (Sys.read_file w (path a) +:+ line_of (asdict e)) w1
     else w1)
    (mkAuditLog (path a) (entry_hash e) (_counter a + 1))
    (journal m).

End AuditSpec.

(** Sample environments for the worked examples. *)
Module Samples.
Import Py Runtime.

Definition tick (n : nat) : Clock.DateTime :=
  Clock.mkDateTime 2024 1 2 3 4 (Z.of_nat n) 0.

(** a healthy disk and a disk on which every operation fails *)
Definition healthy : World := mkWorld tick 0 (fun _ => true) 0 ∅ ∅.

Definition fresh (w : World) : Machine :=
  mkMachine w (Audit.AuditLog_init "audit.jsonl") [].

Definition ev1 : AuditSpec.Event :=
  AuditSpec.mkEvent "ingest_start" "doc-1" "start" "processing"
    "Document ingest started" (PDict [("metadata", PDict [])]).
Definition ev2 : AuditSpec.Event :=
  AuditSpec.mkEvent "semantic_ok" "doc-1" "semantic" "accepted"
    "Semantic clean" (PDict [("scores", PDict [("is_suspicious", PBool false)])]).
Definition ev3 : AuditSpec.Event :=
  AuditSpec.mkEvent "accept" "doc-1" "pipeline_end" "accepted"
    "Document fully clean" (PDict []).

End Samples.

(* ===================================================================== *)
(** ** simulations/full_attack_simulation.py: signing a record *)
(* ===================================================================== *)

Module Simulation.
Import Py LineageChain.

(** [record.signature = sig] *)
Definition set_signature (sig : pyval) (record : LineageRecord) : LineageRecord :=
  mkLineageRecord (document_id record) (version record) (content_hash record)
    (prev_hash record) (created_at record) (author record) (source record) sig.

Definition _sign_lineage_record (signer : Signer.HMACSigner)
    (record : LineageRecord) : LineageRecord :=
  let payload := core_payload_bytes record in
  let signature := Signer.sign signer payload in
  set_signature (PStr signature) record.

End Simulation.

(** Sample records, after the scenarios of the attack simulation. *)
Module SampleRecords.
Import Py LineageChain.

Definition signer : Signer.HMACSigner :=
  Signer.HMACSigner_init "super-secret-demo-key".

Definition verifier : Verify.LineageVerifier := Verify.mkLineageVerifier signer.

Definition content : string :=
  "This is a clean baseline security guideline about API key rotation.".

Definition issued : Clock.DateTime := Clock.mkDateTime 2024 1 2 3 4 5 678.

Definition unsigned : LineageRecord :=
  create_lineage_record issued "doc-clean" content "security-team" "confluence"
    PNone 1.

Definition signed : LineageRecord := Simulation._sign_lineage_record signer unsigned.

(** replace the first character of a string *)
Definition replace_first (c : ascii) (s : string) : string :=
  match s with
  | EmptyString => EmptyString
  | String _ rest => String c rest
  end.

Definition signature_text (r : LineageRecord) : string :=
  match signature r with
  | PStr s => s
  | _ => EmptyString
  end.

(** the signed record with the first character of its signature replaced
    by the ASCII digit 0, and by the letter e-acute (code point 233) *)
Definition forged_ascii : LineageRecord :=
  Simulation.set_signature
    (PStr (replace_first "0"%char (signature_text signed))) signed.

Definition forged_non_ascii : LineageRecord :=
  Simulation.set_signature
    (PStr (replace_first "233"%char (signature_text signed))) signed.

(** the signed record presented with another author, signature kept *)
Definition reattributed : LineageRecord :=
  mkLineageRecord (document_id signed) (version signed) (content_hash signed)
    (prev_hash signed) (created_at signed) (PStr "attacker") (source signed)
    (signature signed).

(** a record whose [content_hash] is not the digest of [content] *)
Definition mismatched : LineageRecord :=
  mkLineageRecord (document_id signed) (version signed) (PStr "DEADBEEF")
    (prev_hash signed) (created_at signed) (author signed) (source signed)
    (signature signed).

End SampleRecords.

Module QuarantineSpec.
Import Py Runtime.

(** the text [_write_json] stores for a value *)
Definition json_text (data : pyval) : string :=
  Json.dumps (Json.Options false false (Some 2%nat)) data.

(** an optional input counts as supplied when it is not [None] *)
Definition supplied (v : pyval) : bool := negb (is_none v).

(** the files of a directory after an optional artifact has been handled *)
Definition artifact (bundle_path name : string) (data : pyval)
    (fs : gmap string string) : gmap string string :=
  if truthy data then <[os_path_join bundle_path name := json_text data]> fs else fs.

Definition bundle_files (bundle_path content reason : string)
    (lineage_record detection_scores metadata : pyval)
    (fs : gmap string string) : gmap string string :=
  artifact bundle_path "metadata.json" metadata
    (artifact bundle_path "detection_scores.json" detection_scores
       (artifact bundle_path "lineage_record.json" lineage_record
          (<[os_path_join bundle_path "reason.txt" := reason]>
             (<[os_path_join bundle_path "content.txt" := content]> fs)))).

Definition starts_with_sep (s : string) : bool :=
  match s with
  | String c _ => Ascii.eqb c "/"%char
  | EmptyString => false
  end.

End QuarantineSpec.

Module PipelineSpec.
Import Py Runtime LineageChain Pipeline.

(** The ways a call of [process_document] can complete. *)
Inductive Outcome : Type :=
| Malformed (raw : pyval) (path : string)
| LineageFailed (r : LineageRecord) (why : string) (path : string)
| SemanticFailed (normalized : option LineageRecord) (scores : pyval) (path : string)
| Accepted (normalized : option LineageRecord) (scores : pyval).

Definition verdict_of (o : Outcome) : Verdict :=
  match o with
  | Malformed _ path =>
      mkVerdict "quarantined" "Invalid lineage record structure." (Some path) None
  | LineageFailed _ why path => mkVerdict "quarantined" why (Some path) None
  | SemanticFailed _ scores path =>
      mkVerdict "quarantined" "Semantic anomaly." (Some path) (Some scores)
  | Accepted _ scores => mkVerdict "accepted" "Clean document." None (Some scores)
  end.

Definition ingest_start (document_id : string) (metadata : pyval) : Call :=
  CallWriteEvent "ingest_start" document_id "start" "processing"
    "Document ingest started" (PDict [("metadata", py_or metadata (PDict []))])
    (Ok tt).

(** the calls of the lineage stage when it lets the document through *)
Definition lineage_calls (self : RAGSecurityPipeline)
    (document_id content : string) (normalized : option LineageRecord) : list Call :=
  match normalized with
  | None => []
  | Some r =>
      [CallVerifyRecord r content
         (Verify.verify_record (lineage_verifier self) r content);
       CallWriteEvent "lineage_ok" document_id "lineage" "accepted" "Lineage valid"
         (PDict [("version", version r)]) (Ok tt)]
  end.

(** the collaborator calls of a completed run, in order *)
Definition calls_of (self : RAGSecurityPipeline) (document_id content : string)
    (metadata : pyval) (o : Outcome) : list Call :=
  ingest_start document_id metadata ::
  match o with
  | Malformed raw path =>
      [CallWriteEvent "lineage_fail" document_id "lineage_deserialization"
         "quarantined" "Invalid lineage structure" (PDict [("raw_lineage", raw)])
         (Ok tt);
       CallSaveEvidenceBundle document_id content
         "Lineage record deserialization failure." raw PNone
         (py_or metadata (PDict [("stage", PStr "lineage_deserialization")]))
         (Ok path)]
  | LineageFailed r why path =>
      [CallVerifyRecord r content (Ok (false, why));
       CallWriteEvent "lineage_fail" document_id "lineage" "quarantined" why
         (PDict [("lineage_record", PDict (__dict__ r))]) (Ok tt);
       CallSaveEvidenceBundle document_id content
         ("Lineage/Integrity failed: " +:+ why) (PDict (__dict__ r)) PNone
         (py_or metadata (PDict [("stage", PStr "lineage")])) (Ok path)]
  | SemanticFailed normalized scores path =>
      lineage_calls self document_id content normalized ++
      [CallDetect content (Ok scores);
       CallWriteEvent "semantic_fail" document_id "semantic" "quarantined"
         "Semantic anomaly detected" (PDict [("scores", scores)]) (Ok tt);
       CallSaveEvidenceBundle document_id content "Semantic anomaly detected."
         (record_snapshot normalized) scores
         (py_or metadata (PDict [("stage", PStr "semantic")])) (Ok path)]
  | Accepted normalized scores =>
      lineage_calls self document_id content normalized ++
      [CallDetect content (Ok scores);
       CallWriteEvent "semantic_ok" document_id "semantic" "accepted"
         "Semantic clean" (PDict [("scores", scores)]) (Ok tt);
       CallWriteEvent "accept" document_id "pipeline_end" "accepted"
         "Document fully clean" (PDict [("scores", scores)]) (Ok tt)]
  end.

(** the lineage stage lets the document through *)
Definition lineage_passes (self : RAGSecurityPipeline) (content : string)
    (lineage_record : lineage_input) (normalized : option LineageRecord) : Prop :=
  _normalize_lineage_record lineage_record = Ok normalized /\
  match normalized with
  | None => input_is_none lineage_record = true
  | Some r =>
      exists why,
        Verify.verify_record (lineage_verifier self) r content = Ok (true, why)
  end.

Definition flagged (scores : pyval) (b : bool) : Prop :=
  exists s, getitem scores "is_suspicious" = Ok s /\ truthy s = b.

(** the outcome the inputs and the collaborators' answers lead to *)
Definition leads_to (self : RAGSecurityPipeline) (content : string)
    (lineage_record : lineage_input) (o : Outcome) : Prop :=
  match o with
  | Malformed raw _ =>
      lineage_record = InValue raw /\ input_is_none lineage_record = false /\
      _normalize_lineage_record lineage_record = Ok None
  | LineageFailed r why _ =>
      _normalize_lineage_record lineage_record = Ok (Some r) /\
      Verify.verify_record (lineage_verifier self) r content = Ok (false, why)
  | SemanticFailed normalized scores _ =>
      lineage_passes self content lineage_record normalized /\
      scores = detect (semantic_scanner self) content /\ flagged scores true
  | Accepted normalized scores =>
      lineage_passes self content lineage_record normalized /\
      scores = detect (semantic_scanner self) content /\ flagged scores false
  end.

Definition healthy (m : Machine) : Prop := forall n, disk (world m) n = true.

(** the audit events among the calls, as (event type, stage) *)
Definition audit_events (calls : list Call) : list (string * string) :=
  flat_map (fun c => match c with
                     | CallWriteEvent event_type _ stage _ _ _ _ => [(event_type, stage)]
                     | _ => []
                     end) calls.

(** the reasons handed to the quarantine store, with the path it returned *)
Definition quarantine_calls (calls : list Call) : list (string * result string) :=
  flat_map (fun c => match c with
                     | CallSaveEvidenceBundle _ _ reason _ _ _ ret => [(reason, ret)]
                     | _ => []
                     end) calls.


(** a call with the bundle path it returned blanked *)
Definition without_path (c : Call) : Call :=
  match c with
  | CallSaveEvidenceBundle d c r l s x (Ok _) =>
      CallSaveEvidenceBundle d c r l s x (Ok EmptyString)
  | _ => c
  end.

End PipelineSpec.

Module SamplePipeline.
Import Py Pipeline.

(** a scorer that flags a text exactly when it contains no space *)
Definition has_space (s : string) : bool :=
  existsb (Ascii.eqb " "%char) (list_ascii_of_string s).

Definition scorer : SemanticScanner :=
  mkSemanticScanner
    (fun text => PDict [("total_score", PFloat (if has_space text then "0.1" else "0.9"));
                        ("is_suspicious", PBool (negb (has_space text)))]).

Definition pipeline : RAGSecurityPipeline :=
  mkRAGSecurityPipeline SampleRecords.verifier scorer
    (Quarantine.mkQuarantineManager "data/quarantine").

(** a lineage payload without its required fields *)
Definition incomplete : lineage_input :=
  InValue (PDict [("document_id", PStr "doc-1"); ("author", PStr "someone")]).



End SamplePipeline.

Module SampleRuns.
Import Py Runtime Pipeline.

(** a machine whose log has already been written to, with another clock *)
Definition later : Machine :=
  mkMachine
    (mkWorld (fun n => Clock.mkDateTime 2025 6 7 8 9 (Z.of_nat n) 0) 0
             (fun _ => true) 0 ∅ ∅)
    (Audit.mkAuditLog "other.jsonl" (PStr "00") 41) [].

Definition malformed_run : result Verdict * Machine :=
  process_document SamplePipeline.pipeline "doc-1" "some text"
    SamplePipeline.incomplete PNone (Samples.fresh Samples.healthy).

Definition tampered_run : result Verdict * Machine :=
  process_document SamplePipeline.pipeline "doc-2" SampleRecords.content
    (InValue (PDict (LineageChain.__dict__ SampleRecords.reattributed))) PNone
    (Samples.fresh Samples.healthy).

Definition poisoned_run : result Verdict * Machine :=
  process_document SamplePipeline.pipeline "doc-3" "Disable-all-audit-logging"
    (InValue PNone) PNone (Samples.fresh Samples.healthy).

(** the signed record with a non-ASCII character in its signature *)
Definition forged_run : result Verdict * Machine :=
  process_document SamplePipeline.pipeline "doc-4" SampleRecords.content
    (InValue (PDict (LineageChain.__dict__ SampleRecords.forged_non_ascii))) PNone
    (Samples.fresh Samples.healthy).

Definition clean_run : result Verdict * Machine :=
  process_document SamplePipeline.pipeline "doc-clean" SampleRecords.content
    (InRecord SampleRecords.signed) (PDict [("scenario", PStr "clean")])
    (Samples.fresh Samples.healthy).

Definition clean_rerun : result Verdict * Machine :=
  process_document
    (mkRAGSecurityPipeline SampleRecords.verifier SamplePipeline.scorer
       (Quarantine.mkQuarantineManager "elsewhere"))
    "doc-clean" SampleRecords.content
    (InRecord SampleRecords.signed) (PDict [("scenario", PStr "clean")]) later.

Definition tampered_rerun : result Verdict * Machine :=
  process_document
    (mkRAGSecurityPipeline SampleRecords.verifier SamplePipeline.scorer
       (Quarantine.mkQuarantineManager "elsewhere"))
    "doc-2" SampleRecords.content
    (InValue (PDict (LineageChain.__dict__ SampleRecords.reattributed))) PNone later.

End SampleRuns.

(* ===================================================================== *)
(** ** Vocabulary of the further properties *)
(* ===================================================================== *)

Module Frames.
Import Py Runtime.





(** the file at [p] only grew at its end *)
Definition appended_to (p : string) (m m' : Machine) : Prop :=
  exists suffix,
    Sys.read_file (world m') p = Sys.read_file (world m) p +:+ suffix.

End Frames.

Module SignatureSpec.
Import Bytes.

(** a lowercase hexadecimal digit *)
Definition is_hex_digit (c : ascii) : bool :=
  let n := codepoint c in
  ((48 <=? n) && (n <=? 57)) || ((97 <=? n) && (n <=? 102)).

Fixpoint is_hex (s : string) : bool :=
  match s with
  | EmptyString => true
  | String c rest => is_hex_digit c && is_hex rest
  end.

End SignatureSpec.

(** The tampering step of the attack scenarios of
    [simulations/full_attack_simulation.py]. *)
Module Scenarios.
Import Py LineageChain.

(** [tampered = record.__dict__.copy(); tampered["author"] = "attacker";
    tampered["content_hash"] = fake] *)
Definition tamper (fake : string) (record : LineageRecord) : list (string * pyval) :=
  let tampered := __dict__ record in
  let tampered := dict_set "author" (PStr "attacker") tampered in
  dict_set "content_hash" (PStr fake) tampered.

End Scenarios.

Module ExtraSamples.
Import Py Runtime.



(** a clock that gives two readings within the same second *)
Definition same_second : World :=
  mkWorld (fun n => Clock.mkDateTime 2024 1 2 3 4 5 (Z.of_nat n)) 0
          (fun _ => true) 0 ∅ ∅.

Definition store : Quarantine.QuarantineManager :=
  Quarantine.mkQuarantineManager "data/quarantine".


End ExtraSamples.

Module LineageSpec.
Import Py LineageChain.

Definition jfield (k : string) (v : pyval) : string :=
  Json.encode_str true k +:+ ": " +:+ Json.encode (Json.Options true true None) 1 v.

(** the signed text, written out: the seven core fields in lexicographic
    key order *)
Definition core_layout (r : LineageRecord) : string :=
  "{" +:+ jfield "author" (author r)
  +:+ ", " +:+ jfield "content_hash" (content_hash r)
  +:+ ", " +:+ jfield "created_at" (created_at r)
  +:+ ", " +:+ jfield "document_id" (document_id r)
  +:+ ", " +:+ jfield "prev_hash" (prev_hash r)
  +:+ ", " +:+ jfield "source" (source r)
  +:+ ", " +:+ jfield "version" (version r)
  +:+ "}".

(** the text of [to_json], written out: the same with the signature *)
Definition full_layout (r : LineageRecord) : string :=
  "{" +:+ jfield "author" (author r)
  +:+ ", " +:+ jfield "content_hash" (content_hash r)
  +:+ ", " +:+ jfield "created_at" (created_at r)
  +:+ ", " +:+ jfield "document_id" (document_id r)
  +:+ ", " +:+ jfield "prev_hash" (prev_hash r)
  +:+ ", " +:+ jfield "signature" (signature r)
  +:+ ", " +:+ jfield "source" (source r)
  +:+ ", " +:+ jfield "version" (version r)
  +:+ "}".

(** the record a tampered dict normalizes to *)
Definition tampered_record (fake : string) (r : LineageRecord) : LineageRecord :=
  mkLineageRecord (document_id r) (version r) (PStr fake) (prev_hash r)
    (created_at r) (PStr "attacker") (source r) (signature r).

End LineageSpec.

Module BundleSpec.
Import Py Runtime.



(** how many of the optional artifacts are written *)
Definition artifact_count (lineage_record detection_scores metadata : pyval) : nat :=
  ((if truthy lineage_record then 1 else 0)
   + (if truthy detection_scores then 1 else 0)
   + (if truthy metadata then 1 else 0))%nat.

(** the results the scorer returned among the calls *)
Definition detect_results (calls : list Call) : list pyval :=
  flat_map (fun c => match c with
                     | CallDetect _ (Ok scores) => [scores]
                     | _ => []
                     end) calls.

End BundleSpec.

Module CollisionSample.
Import Py Runtime.

Definition first_save : result string * Machine :=
  Quarantine.save_evidence_bundle ExtraSamples.store "doc 1" "first text" "first reason"
    (PDict [("version", PInt 1)]) PNone PNone (Samples.fresh ExtraSamples.same_second).

Definition second_save : result string * Machine :=
  Quarantine.save_evidence_bundle ExtraSamples.store "doc 1" "second text"
    "second reason" PNone PNone PNone (snd first_save).


End CollisionSample.

(* ===================================================================== *)
(** * Properties *)
(* ===================================================================== *)

(** ** Test vectors for the library functions *)

Example sha256_abc :
  SHA256.hexdigest (Bytes.encode_utf8 "abc")
  = "ba7816bf8f01cfea414140de5dae2223b00361a396177a9cb410ff61f20015ad".
Proof. vm_compute. reflexivity. Qed.

Example sha256_two_blocks :
  SHA256.hexdigest
    (Bytes.encode_utf8 "abcdbcdecdefdefgefghfghighijhijkijkljklmklmnlmnomnopnopq")
  = "248d6a61d20638b8e5c026930c3e6039a33ce45964ff2167f6ecedd419db06c1".
Proof. vm_compute. reflexivity. Qed.

Example hmac_sha256_fox :
  HMAC.hexdigest (Bytes.encode_utf8 "key")
    (Bytes.encode_utf8 "The quick brown fox jumps over the lazy dog")
  = "f7bc83f430538424b13298e6aa6fb143ef4d59a14946175997479dbc2d1a3cd8".
Proof. vm_compute. reflexivity. Qed.

Example join_plain : Py.os_path_join "data/quarantine" "x" = "data/quarantine/x".
Proof. reflexivity. Qed.

Example join_trailing_sep : Py.os_path_join "data/" "x" = "data/x".
Proof. reflexivity. Qed.

Example json_sorted_keys :
  Json.dumps (Json.Options true true None)
    (Py.PDict [("b", Py.PList [Py.PInt 1; Py.PNone]); ("a", Py.PBool true)])
  = "{" +:+ Json.encode_str true "a" +:+ ": true, " +:+ Json.encode_str true "b"
    +:+ ": [1, null]}".
Proof. vm_compute. reflexivity. Qed.

Example json_indented :
  Json.dumps (Json.Options false false (Some 2%nat))
    (Py.PDict [("b", Py.PList [Py.PInt 1; Py.PDict [("a", Py.PNone)]]);
               ("c", Py.PDict []); ("d", Py.PList [])])
  = String.concat (String Py.newline EmptyString)
      ["{";
       "  " +:+ Json.encode_str false "b" +:+ ": [";
       "    1,";
       "    {";
       "      " +:+ Json.encode_str false "a" +:+ ": null";
       "    }";
       "  ],";
       "  " +:+ Json.encode_str false "c" +:+ ": {},";
       "  " +:+ Json.encode_str false "d" +:+ ": []";
       "}"].
Proof. vm_compute. reflexivity. Qed.

(** escapes: DEL and e-acute are escaped only under [ensure_ascii] *)
Example json_escapes :
  Json.escape true
    (String "127"%char (String "233"%char (String "010"%char (String "092"%char EmptyString))))
  = "\u007f\u00e9\n\\" /\
  Json.escape false
    (String "127"%char (String "233"%char (String "001"%char EmptyString)))
  = String "127"%char (String "233"%char "\u0001").
Proof. split; vm_compute; reflexivity. Qed.

(** ** The monad *)

Module MonadFacts.
Import Py Runtime.

Lemma bind_ok {A B} (c : M A) (k : A -> M B) m b m' :
  (x <- c ;; k x) m = (Ok b, m') ->
  exists a m1, c m = (Ok a, m1) /\ k a m1 = (Ok b, m').
Proof.
  unfold bind. destruct (c m) as [[a|e] m1]; [eauto | discriminate].
Qed.


Lemma bind_raise {A B} (c : M A) (k : A -> M B) m e m1 :
  c m = (Raise e, m1) -> (x <- c ;; k x) m = (Raise e, m1).
Proof. intros H. unfold bind. now rewrite H. Qed.



Lemma now_run m :
  Sys.now m =
  let w := world m in
  (Ok (clock w (ticks w)),
   mkMachine (mkWorld (clock w) (S (ticks w)) (disk w) (io_ops w) (files w) (dirs w))
             (audit_log m) (journal m)).
Proof. reflexivity. Qed.

End MonadFacts.

(** ** Strings and JSON text *)

Module StringFacts.

Lemma append_assoc (a b c : string) : (a +:+ b) +:+ c = a +:+ (b +:+ c).
Proof.
  induction a as [|x a IH]; [reflexivity|].
  change (String x ((a +:+ b) +:+ c) = String x (a +:+ (b +:+ c))).
  now rewrite IH.
Qed.

Lemma append_nil_r (a : string) : a +:+ EmptyString = a.
Proof.
  induction a as [|x a IH]; [reflexivity|].
  change (String x (a +:+ EmptyString) = String x a). now rewrite IH.
Qed.

Lemma length_append (a b : string) :
  String.length (a +:+ b) = (String.length a + String.length b)%nat.
Proof.
  induction a as [|x a IH]; [reflexivity|].
  change (S (String.length (a +:+ b)) = S (String.length a + String.length b)).
  now rewrite IH.
Qed.

End StringFacts.

Module JsonFacts.
Import Py.

Lemma encode_dict o level kv items :
  Json.encode o level (PDict (kv :: items)) =
  let enc := map (fun '(k, x) => (k, Json.encode o (S level) x)) (kv :: items) in
  let enc := if Json.sort_keys o then Json.sort_items enc else enc in
  "{" +:+ Json.break o (S level)
  +:+ String.concat (Json.item_sep o (S level))
        (map (fun '(k, t) => Json.encode_str (Json.ensure_ascii o) k +:+ ": " +:+ t) enc)
  +:+ Json.break o level +:+ "}".
Proof. reflexivity. Qed.

End JsonFacts.

Module AuditFacts.
Import Py Runtime Audit AuditSpec MonadFacts StringFacts.

Lemma dict_set_entry_hash h e :
  dict_set "entry_hash" h (asdict e) = asdict (with_hash h e).
Proof. reflexivity. Qed.

Lemma with_hash_blank e : entry_hash e = PNone -> with_hash PNone e = e.
Proof. destruct e; simpl; intros ->; reflexivity. Qed.

Lemma with_hash_twice h h' e : with_hash h (with_hash h' e) = with_hash h e.
Proof. reflexivity. Qed.

(** Recomputing over a sealed entry gives the digest it stores. *)
Lemma recompute_sealed e :
  entry_hash e = PNone ->
  recompute_hash (asdict (sealed e)) = _compute_entry_hash (asdict e).
Proof.
  intros H. unfold recompute_hash, sealed.
  now rewrite dict_set_entry_hash, with_hash_twice, with_hash_blank.
Qed.



Lemma write_run ev m :
  write ev m =
  let e := sealed (draft m ev) in
  if disk (world m) (io_ops (world m))
  then (Ok tt, advanced m e true)
  else (Raise OSError, advanced m e false).
Proof.
  destruct m as [[ck tk dk ops fs ds] [p lh ct] j].
  unfold write, AuditLogOps.write_event, sealed, draft, advanced.
  with_strategy opaque [_compute_entry_hash line_of Clock.strftime_audit String.append Z.add]
    (cbn; destruct (dk ops); reflexivity).
Qed.

Lemma chained_sealed_draft m ev :
  let e := sealed (draft m ev) in
  index e = _counter (audit_log m) /\ prev_hash e = _last_hash (audit_log m) /\
  entry_hash e = PStr (recompute_hash (asdict e)) /\ carries ev e.
Proof.
  cbv zeta. rewrite recompute_sealed by reflexivity.
  unfold carries. repeat split.
Qed.

Lemma read_set_file_eq p text w : Sys.read_file (Sys.set_file p text w) p = text.
Proof. unfold Sys.read_file, Sys.set_file. simpl. now rewrite lookup_insert_eq. Qed.

Lemma read_set_file_ne p q text w :
  p <> q -> Sys.read_file (Sys.set_file p text w) q = Sys.read_file w q.
Proof. intros H. unfold Sys.read_file, Sys.set_file. simpl. now rewrite lookup_insert_ne. Qed.

(** Successful writes extend the file by the lines of a chain that starts
    at the machine's chain head. *)
Lemma write_events_chain evs : forall m m',
  write_events evs m = (Ok tt, m') ->
  exists entries,
    Forall2 carries evs entries /\
    chained (_last_hash (audit_log m)) (_counter (audit_log m)) entries /\
    path (audit_log m') = path (audit_log m) /\
    Sys.read_file (world m') (path (audit_log m))
    = Sys.read_file (world m) (path (audit_log m)) +:+ lines entries.
Proof.
  induction evs as [|ev evs IH]; intros m m' Hrun.
  - injection Hrun as <-. exists []. repeat split; [constructor|].
    unfold lines. simpl. now rewrite append_nil_r.
  - cbn [write_events] in Hrun. apply bind_ok in Hrun as (u & m1 & Hw & Hrest).
    rewrite write_run in Hw. cbv zeta in Hw.
    destruct (disk (world m) (io_ops (world m))); [|discriminate].
    injection Hw as _ <-.
    apply IH in Hrest as (entries & Hc & Hch & Hp & Hf).
    destruct (chained_sealed_draft m ev) as (Hi & Hprev & Hh & Hcar).
    exists (sealed (draft m ev) :: entries).
    split; [constructor; assumption|].
    split; [cbn [chained]; repeat (split; [assumption|]); exact Hch|].
    split; [exact Hp|].
    cbn [advanced audit_log path] in Hf. rewrite Hf.
    unfold advanced. cbn [world]. rewrite read_set_file_eq.
    unfold lines. cbn [map String.concat].
    destruct entries; cbn [map String.concat].
    * now rewrite append_nil_r.
    * rewrite append_assoc. reflexivity.
Qed.

Lemma chained_lookup es : forall prev i,
  chained prev i es ->
  forall (n : nat) e, es !! n = Some e ->
    index e = i + Z.of_nat n /\
    entry_hash e = PStr (recompute_hash (asdict e)) /\
    match n with
    | O => prev_hash e = prev
    | S k => exists e', es !! k = Some e' /\ prev_hash e = entry_hash e'
    end.
Proof.
  induction es as [|e0 es IH]; intros prev i Hch n e Hn; [destruct n; discriminate|].
  destruct Hch as (Hi & Hp & Hh & Hrest).
  destruct n as [|k]; cbn in Hn.
  - injection Hn as <-. repeat split; [lia | assumption | assumption].
  - destruct (IH _ _ Hrest k e Hn) as (Hi' & Hh' & Hlink).
    repeat split; [lia | assumption |].
    destruct k as [|k'].
    + exists e0. split; [reflexivity | assumption].
    + destruct Hlink as (e' & He' & Hl). exists e'. split; assumption.
Qed.

Lemma write_events_total evs : forall m,
  (forall n, disk (world m) n = true) ->
  exists m', write_events evs m = (Ok tt, m').
Proof.
  induction evs as [|ev evs IH]; intros m Hd; [eexists; reflexivity|].
  cbn [write_events]. unfold bind. rewrite write_run. cbv zeta. rewrite Hd.
  apply IH. intros n. apply Hd.
Qed.

End AuditFacts.

(** ** The audit log *)

Import Py Runtime Audit AuditSpec.

(** C1. On a freshly constructed [AuditLog], [N] successful [write_event]
    calls append [N] entries to the log file, one per call and in call order;
    entry [i] has index [i], entry 0 has no [prev_hash], entry [i > 0] has the
    [entry_hash] of entry [i - 1] as its [prev_hash], and every stored
    [entry_hash] is the digest a reader recomputes. *)
Theorem write_events_form_hash_chain (p : string) (evs : list Event) (m m' : Machine) :
  audit_log m = AuditLog_init p ->
  write_events evs m = (Ok tt, m') ->
  exists entries : list AuditLogEntry,
    Forall2 carries evs entries /\
    Sys.read_file (world m') p = Sys.read_file (world m) p +:+ lines entries /\
    forall (i : nat) (e : AuditLogEntry), entries !! i = Some e ->
      index e = Z.of_nat i /\
      entry_hash e = PStr (recompute_hash (asdict e)) /\
      match i with
      | O => prev_hash e = PNone
      | S j => exists e', entries !! j = Some e' /\ prev_hash e = entry_hash e'
      end.
Proof.
  intros Hfresh Hrun.
  destruct (AuditFacts.write_events_chain evs m m' Hrun) as (entries & Hc & Hch & _ & Hf).
  rewrite Hfresh in Hch, Hf. cbn [AuditLog_init path _last_hash _counter] in Hch, Hf.
  exists entries. split; [exact Hc|]. split; [exact Hf|].
  intros i e Hi.
  destruct (AuditFacts.chained_lookup entries _ _ Hch i e Hi) as (H1 & H2 & H3).
  repeat split; [lia | exact H2 | exact H3].
Qed.

Lemma write_events_form_hash_chain_witness :
  audit_log (Samples.fresh Samples.healthy) = AuditLog_init "audit.jsonl" /\
  fst (write_events [Samples.ev1; Samples.ev2; Samples.ev3] (Samples.fresh Samples.healthy))
  = Ok tt /\
  exists entries : list AuditLogEntry,
    Forall2 carries [Samples.ev1; Samples.ev2; Samples.ev3] entries /\
    Sys.read_file
      (world (snd (write_events [Samples.ev1; Samples.ev2; Samples.ev3]
                     (Samples.fresh Samples.healthy)))) "audit.jsonl"
    = Sys.read_file (world (Samples.fresh Samples.healthy)) "audit.jsonl" +:+ lines entries /\
    forall (i : nat) (e : AuditLogEntry), entries !! i = Some e ->
      index e = Z.of_nat i /\
      entry_hash e = PStr (recompute_hash (asdict e)) /\
      match i with
      | O => prev_hash e = PNone
      | S j => exists e', entries !! j = Some e' /\ prev_hash e = entry_hash e'
      end.
Proof.
  split; [reflexivity|]. split; [vm_compute; reflexivity|].
  apply (write_events_form_hash_chain "audit.jsonl"
           [Samples.ev1; Samples.ev2; Samples.ev3] (Samples.fresh Samples.healthy)).
  - reflexivity.
  - vm_compute. reflexivity.
Defined.




(** ** Signing and verifying lineage records *)

Module SignerFacts.
Import Bytes Py LineageChain.

Lemma hex_digit_ascii n : (codepoint (hex_digit n) <? 128) = true.
Proof.
  unfold hex_digit. cbv zeta.
  assert (Hb : 0 <= Z.land n 15 < 16).
  { change 15 with (Z.ones 4). rewrite Z.land_ones by lia. apply Z.mod_pos_bound. lia. }
  set (d := Z.land n 15) in *.
  assert (Hd : d = 0 \/ d = 1 \/ d = 2 \/ d = 3 \/ d = 4 \/ d = 5 \/ d = 6 \/ d = 7 \/
               d = 8 \/ d = 9 \/ d = 10 \/ d = 11 \/ d = 12 \/ d = 13 \/ d = 14 \/ d = 15)
    by lia.
  repeat (destruct Hd as [-> | Hd]; [reflexivity|]). subst d. rewrite Hd. reflexivity.
Qed.

Lemma is_ascii_append a b : is_ascii (a +:+ b) = is_ascii a && is_ascii b.
Proof.
  induction a as [|c a IH]; [reflexivity|].
  change (is_ascii (String c (a +:+ b)) = is_ascii (String c a) && is_ascii b).
  cbn [is_ascii]. rewrite IH. now rewrite andb_assoc.
Qed.

Lemma hex_of_bytes_ascii bs : is_ascii (hex_of_bytes bs) = true.
Proof.
  induction bs as [|b bs IH]; [reflexivity|].
  cbn [hex_of_bytes]. rewrite is_ascii_append, IH.
  unfold hex_byte. cbn [is_ascii]. now rewrite !hex_digit_ascii.
Qed.

Lemma sign_ascii s content : is_ascii (Signer.sign s content) = true.
Proof. apply hex_of_bytes_ascii. Qed.

(** what [verify] answers, by the shape of the signature it is given *)
Lemma verify_str s content sig :
  is_ascii sig = true ->
  Signer.verify s content (PStr sig) = Ok (String.eqb (Signer.sign s content) sig).
Proof.
  intros H. unfold Signer.verify, Signer.compare_digest. now rewrite sign_ascii, H.
Qed.

Lemma verify_non_ascii s content sig :
  is_ascii sig = false -> Signer.verify s content (PStr sig) = Raise TypeError.
Proof.
  intros H. unfold Signer.verify, Signer.compare_digest. now rewrite H, andb_false_r.
Qed.

End SignerFacts.

Module VerifyFacts.
Import Bytes Py LineageChain Verify Simulation.

Lemma str_eq_true a v : str_eq a v = true <-> v = PStr a.
Proof.
  destruct v; cbn; try (split; [discriminate | intros [=]]).
  rewrite String.eqb_eq. split; [intros ->; reflexivity | intros [= ->]; reflexivity].
Qed.

Lemma content_hash_checked v r content :
  verify_content_hash v r content = true
  <-> content_hash r = PStr (compute_content_hash content).
Proof. apply str_eq_true. Qed.

(** the signature is not part of the signed payload *)
Lemma core_payload_set_signature sig r :
  core_payload_bytes (set_signature sig r) = core_payload_bytes r.
Proof. reflexivity. Qed.


Lemma verify_signature_str v r sig :
  signature r = PStr sig -> is_ascii sig = true ->
  verify_signature v r
  = Ok (String.eqb (Signer.sign (signer v) (core_payload_bytes r)) sig).
Proof.
  intros H Ha. unfold verify_signature. rewrite H. cbn [is_none].
  now apply SignerFacts.verify_str.
Qed.

Lemma verify_signature_non_ascii v r sig :
  signature r = PStr sig -> is_ascii sig = false ->
  verify_signature v r = Raise TypeError.
Proof.
  intros H Ha. unfold verify_signature. rewrite H. cbn [is_none].
  now apply SignerFacts.verify_non_ascii.
Qed.


(** any other ASCII signature is rejected *)
Lemma altered_ascii_signature_rejected v r sig :
  is_ascii sig = true ->
  sig <> Signer.sign (signer v) (core_payload_bytes r) ->
  verify_signature v (set_signature (PStr sig) r) = Ok false.
Proof.
  intros Ha Hne.
  erewrite verify_signature_str; [| reflexivity | exact Ha].
  rewrite core_payload_set_signature.
  f_equal. apply String.eqb_neq. congruence.
Qed.

(** a signature made for another payload is rejected unless the two
    payloads have the same MAC *)
Lemma altered_payload_rejected v r r' :
  Signer.sign (signer v) (core_payload_bytes r')
  <> Signer.sign (signer v) (core_payload_bytes r) ->
  verify_signature v
    (set_signature (PStr (Signer.sign (signer v) (core_payload_bytes r))) r')
  = Ok false.
Proof.
  intros Hne.
  erewrite verify_signature_str;
    [| reflexivity | apply SignerFacts.sign_ascii].
  rewrite core_payload_set_signature. f_equal. now apply String.eqb_neq.
Qed.

End VerifyFacts.

Import LineageChain Verify.



(** The content check comes first: a record with a wrong content hash and a
    signature that cannot even be compared is reported as a content
    mismatch. *)
Example mismatch_reported_before_signature :
  verify_record SampleRecords.verifier
    (Simulation.set_signature (PInt 7) SampleRecords.mismatched) SampleRecords.content
  = Ok (false, "Content hash mismatch.").
Proof. vm_compute. reflexivity. Qed.

(** C7, at the failing input.  The signed sample record verifies; with the
    first character of its signature replaced by a non-ASCII letter,
    [verify_signature] does not answer [False]: [hmac.compare_digest] raises
    [TypeError], and so does [verify_record]. *)
Theorem non_ascii_signature_raises :
  verify_signature SampleRecords.verifier SampleRecords.signed = Ok true /\
  verify_signature SampleRecords.verifier SampleRecords.forged_ascii = Ok false /\
  verify_signature SampleRecords.verifier SampleRecords.forged_non_ascii
  = Raise TypeError /\
  verify_record SampleRecords.verifier SampleRecords.forged_non_ascii
    SampleRecords.content
  = Raise TypeError.
Proof. repeat split; vm_compute; reflexivity. Qed.

(** ** The quarantine store *)

Module QuarantineFacts.
Import Py Runtime Quarantine QuarantineSpec MonadFacts.

Lemma store_ok self doc content reason lr ds md m bp m' :
  save_evidence_bundle self doc content reason lr ds md m = (Ok bp, m') ->
  bp = os_path_join (quarantine_dir self)
         (bundle_name (clock (world m) (ticks (world m))) doc) /\
  files (world m') = bundle_files bp content reason lr ds md (files (world m)) /\
  audit_log m' = audit_log m /\ journal m' = journal m /\
  clock (world m') = clock (world m) /\ disk (world m') = disk (world m).
Proof.
  destruct m as [[ck tk dk ops fs dd] a j].
  unfold save_evidence_bundle, _bundle_path, _write_json, _write_text,
    Sys.write_file, Sys.makedirs, bundle_files, artifact.
  intros H.
  destruct (truthy lr), (truthy ds), (truthy md);
    cbv beta iota zeta delta
      [bind ret lift raise get_world put_world Sys.io_op Sys.now Sys.set_file
       world audit_log journal clock ticks disk io_ops files dirs] in H;
    repeat match type of H with
           | context [dk ?n] => destruct (dk n); [|discriminate H]
           end;
    injection H as <- <-; repeat split.
Qed.

Lemma os_path_join_relative a b :
  starts_with_sep b = false ->
  os_path_join a b
  = if String.eqb a EmptyString || endswith_sep a then a +:+ b else a +:+ "/" +:+ b.
Proof.
  destruct b as [|c b]; [reflexivity|]. cbn [starts_with_sep].
  destruct c as [[] [] [] [] [] [] [] []]; intros H; try reflexivity; discriminate H.
Qed.

Lemma os_path_join_inj p a b :
  starts_with_sep a = false -> starts_with_sep b = false ->
  os_path_join p a = os_path_join p b -> a = b.
Proof.
  intros Ha Hb. rewrite !os_path_join_relative by assumption.
  destruct (String.eqb p EmptyString || endswith_sep p); intros H.
  - now apply (String.app_inj p) in H.
  - apply (String.app_inj p) in H. now apply (String.app_inj "/") in H.
Qed.

Lemma starts_with_sep_append a b :
  starts_with_sep (a +:+ b)
  = match a with EmptyString => starts_with_sep b | _ => starts_with_sep a end.
Proof. destruct a; reflexivity. Qed.

Lemma str_of_int_head n :
  exists c rest, str_of_int n = String c rest /\ Ascii.eqb c "/"%char = false.
Proof.
  unfold str_of_int.
  destruct (Z.to_int n) as [d|d]; cbn.
  - destruct d; cbn; eexists _, _; split; reflexivity.
  - eexists _, _; split; reflexivity.
Qed.

Lemma zfill_relative w n : starts_with_sep (zfill w (str_of_int n)) = false.
Proof.
  destruct (str_of_int_head n) as (c & rest & -> & Hc).
  unfold zfill. destruct (w - String.length (String c rest))%nat; cbn; [exact Hc | reflexivity].
Qed.

Lemma zfill_nonempty w n : zfill w (str_of_int n) <> EmptyString.
Proof.
  destruct (str_of_int_head n) as (c & rest & -> & Hc).
  unfold zfill. destruct (w - String.length (String c rest))%nat; cbn; discriminate.
Qed.

Lemma bundle_name_relative t doc : starts_with_sep (bundle_name t doc) = false.
Proof.
  unfold bundle_name, Clock.strftime_bundle. cbv zeta.
  rewrite !StringFacts.append_assoc, starts_with_sep_append.
  pose proof (zfill_nonempty 4 (Clock.year t)) as Hne.
  pose proof (zfill_relative 4 (Clock.year t)) as Hr.
  unfold Clock.d4. destruct (zfill 4 (str_of_int (Clock.year t))); [contradiction | exact Hr].
Qed.

Lemma lookup_artifact_ne bp name data fs k :
  os_path_join bp name <> k -> artifact bp name data fs !! k = fs !! k.
Proof.
  intros H. unfold artifact. destruct (truthy data); [|reflexivity].
  now rewrite lookup_insert_ne.
Qed.

Lemma lookup_artifact_eq bp name data (fs : gmap string string) :
  artifact bp name data fs !! os_path_join bp name
  = if truthy data then Some (json_text data) else fs !! os_path_join bp name.
Proof.
  unfold artifact. destruct (truthy data); [|reflexivity]. now rewrite lookup_insert_eq.
Qed.

Lemma names_apart bp a b :
  starts_with_sep a = false -> starts_with_sep b = false -> a <> b ->
  os_path_join bp a <> os_path_join bp b.
Proof. intros Ha Hb Hne H. apply Hne. now apply (os_path_join_inj bp). Qed.

End QuarantineFacts.

Import Quarantine QuarantineSpec.

(** The bundle name has second precision: the microseconds of the clock
    reading do not enter it. *)
Lemma bundle_name_second_precision y mo d h mi s us us' doc :
  bundle_name (Clock.mkDateTime y mo d h mi s us) doc
  = bundle_name (Clock.mkDateTime y mo d h mi s us') doc.
Proof. reflexivity. Qed.

(** C8, counterexample.  An empty dict is supplied as [lineage_record]; the
    call succeeds and no [lineage_record.json] is written. *)
Lemma supplied_empty_lineage_not_written :
  supplied (PDict []) = true /\
  fst (save_evidence_bundle (mkQuarantineManager "data/quarantine") "doc 1" "text"
         "why" (PDict []) PNone PNone (Samples.fresh Samples.healthy))
  = Ok "data/quarantine/20240102T030400Z_doc_1" /\
  files (world (snd (save_evidence_bundle (mkQuarantineManager "data/quarantine")
                       "doc 1" "text" "why" (PDict []) PNone PNone
                       (Samples.fresh Samples.healthy))))
    !! "data/quarantine/20240102T030400Z_doc_1/lineage_record.json" = None.
Proof. repeat split; vm_compute; reflexivity. Qed.

(** C8, amended.  A successful [save_evidence_bundle] returns the quarantine
    root joined with [timestamp_safeid], where the timestamp is the UTC
    clock reading in the format [%Y%m%dT%H%M%SZ] and the safe id is the
    document id with spaces replaced by underscores; the bundle holds the
    content and the reason; each optional artifact is written exactly when
    its input is truthy, and otherwise its file is left as it was. *)
Theorem save_evidence_bundle_artifacts (self : QuarantineManager)
    (document_id content reason : string)
    (lineage_record detection_scores metadata : pyval)
    (m m' : Machine) (bundle_path : string) :
  save_evidence_bundle self document_id content reason lineage_record
    detection_scores metadata m = (Ok bundle_path, m') ->
  let root := quarantine_dir self in
  let name := Clock.strftime_bundle (clock (world m) (ticks (world m))) +:+ "_"
              +:+ str_replace " "%char "_"%char document_id in
  let stored f := files (world m') !! os_path_join bundle_path f in
  let before f := files (world m) !! os_path_join bundle_path f in
  bundle_path = os_path_join root name /\
  bundle_path = (if String.eqb root EmptyString || endswith_sep root
                 then root +:+ name else root +:+ "/" +:+ name) /\
  stored "content.txt" = Some content /\
  stored "reason.txt" = Some reason /\
  stored "lineage_record.json"
  = (if truthy lineage_record then Some (json_text lineage_record)
     else before "lineage_record.json") /\
  stored "detection_scores.json"
  = (if truthy detection_scores then Some (json_text detection_scores)
     else before "detection_scores.json") /\
  stored "metadata.json"
  = (if truthy metadata then Some (json_text metadata) else before "metadata.json").
Proof.
  intros Hrun. cbv zeta.
  destruct (QuarantineFacts.store_ok _ _ _ _ _ _ _ _ _ _ Hrun) as (Hbp & Hfiles & _).
  pose proof (QuarantineFacts.bundle_name_relative
                (clock (world m) (ticks (world m))) document_id) as Hrel.
  unfold bundle_name in Hrel, Hbp. cbv zeta in Hrel, Hbp.
  split; [exact Hbp|].
  split; [rewrite Hbp at 1; now apply QuarantineFacts.os_path_join_relative|].
  rewrite Hfiles. unfold bundle_files.
  assert (Hapart : forall a b, starts_with_sep a = false -> starts_with_sep b = false ->
            a <> b -> os_path_join bundle_path a <> os_path_join bundle_path b)
    by (intros; now apply QuarantineFacts.names_apart).
  repeat split.
  - rewrite !QuarantineFacts.lookup_artifact_ne by (apply Hapart; [reflexivity..|discriminate]).
    rewrite lookup_insert_ne by (apply Hapart; [reflexivity..|discriminate]).
    now rewrite lookup_insert_eq.
  - rewrite !QuarantineFacts.lookup_artifact_ne by (apply Hapart; [reflexivity..|discriminate]).
    now rewrite lookup_insert_eq.
  - rewrite !QuarantineFacts.lookup_artifact_ne by (apply Hapart; [reflexivity..|discriminate]).
    rewrite QuarantineFacts.lookup_artifact_eq.
    destruct (truthy lineage_record); [reflexivity|].
    now rewrite !lookup_insert_ne by (apply Hapart; [reflexivity..|discriminate]).
  - rewrite !QuarantineFacts.lookup_artifact_ne by (apply Hapart; [reflexivity..|discriminate]).
    rewrite QuarantineFacts.lookup_artifact_eq.
    destruct (truthy detection_scores); [reflexivity|].
    rewrite !QuarantineFacts.lookup_artifact_ne by (apply Hapart; [reflexivity..|discriminate]).
    now rewrite !lookup_insert_ne by (apply Hapart; [reflexivity..|discriminate]).
  - rewrite QuarantineFacts.lookup_artifact_eq.
    destruct (truthy metadata); [reflexivity|].
    rewrite !QuarantineFacts.lookup_artifact_ne by (apply Hapart; [reflexivity..|discriminate]).
    now rewrite !lookup_insert_ne by (apply Hapart; [reflexivity..|discriminate]).
Qed.

Lemma save_evidence_bundle_artifacts_witness :
  files (world (snd (save_evidence_bundle (mkQuarantineManager "data/quarantine")
                       "doc 1" "text" "why" (PDict [("a", PInt 1)]) (PDict []) PNone
                       (Samples.fresh Samples.healthy))))
    !! os_path_join "data/quarantine/20240102T030400Z_doc_1" "lineage_record.json"
  = Some (json_text (PDict [("a", PInt 1)])) /\
  files (world (snd (save_evidence_bundle (mkQuarantineManager "data/quarantine")
                       "doc 1" "text" "why" (PDict [("a", PInt 1)]) (PDict []) PNone
                       (Samples.fresh Samples.healthy))))
    !! os_path_join "data/quarantine/20240102T030400Z_doc_1" "detection_scores.json"
  = None.
Proof.
  pose proof (save_evidence_bundle_artifacts (mkQuarantineManager "data/quarantine")
                "doc 1" "text" "why" (PDict [("a", PInt 1)]) (PDict []) PNone
                (Samples.fresh Samples.healthy)
                (snd (save_evidence_bundle (mkQuarantineManager "data/quarantine")
                        "doc 1" "text" "why" (PDict [("a", PInt 1)]) (PDict []) PNone
                        (Samples.fresh Samples.healthy)))
                "data/quarantine/20240102T030400Z_doc_1") as H.
  cbv zeta in H.
  destruct H as (_ & _ & _ & _ & Hl & Hd & _); [vm_compute; reflexivity|].
  split; [exact Hl | exact Hd].
Defined.

(** ** The ingestion pipeline *)

Module PipelineFacts.
Import Py Runtime LineageChain Pipeline PipelineSpec MonadFacts.

Lemma lift_ok {A} (r : result A) m a m' : lift r m = (Ok a, m') -> r = Ok a /\ m' = m.
Proof. unfold lift. intros [= -> ->]. split; reflexivity. Qed.

Lemma ret_ok {A} (x : A) m a m' : ret x m = (Ok a, m') -> a = x /\ m' = m.
Proof. unfold ret. intros [= -> ->]. split; reflexivity. Qed.

Lemma traced_ok {A} (mk : result A -> Call) (c : M A) m a m' :
  traced mk c m = (Ok a, m') ->
  exists m1, c m = (Ok a, m1) /\
             m' = mkMachine (world m1) (audit_log m1) (journal m1 ++ [mk (Ok a)]).
Proof.
  unfold traced. destruct (c m) as [r m1]. intros [= -> <-]. eauto.
Qed.

(** a completed audit write enters the journal and touches nothing else in it *)
Lemma write_event_ok et doc st ss rs dt m u m' :
  audit_write_event et doc st ss rs dt m = (Ok u, m') ->
  journal m' = journal m ++ [CallWriteEvent et doc st ss rs dt (Ok tt)].
Proof.
  intros H. apply traced_ok in H as (m1 & Hw & ->). destruct u. cbn [journal].
  change (AuditLogOps.write_event et doc st ss rs dt)
    with (AuditSpec.write (AuditSpec.mkEvent et doc st ss rs dt)) in Hw.
  rewrite AuditFacts.write_run in Hw. cbv zeta in Hw.
  destruct (disk (world m) (io_ops (world m))); [|discriminate].
  injection Hw as <-. reflexivity.
Qed.

Lemma store_call_ok self doc content why lr ds md m p m' :
  quarantine_save_evidence_bundle self doc content why lr ds md m = (Ok p, m') ->
  journal m' = journal m ++ [CallSaveEvidenceBundle doc content why lr ds md (Ok p)].
Proof.
  intros H. apply traced_ok in H as (m1 & Hs & ->). cbn [journal].
  apply QuarantineFacts.store_ok in Hs as (_ & _ & _ & -> & _). reflexivity.
Qed.

Lemma verify_ok self r content m x m' :
  verifier_verify_record self r content m = (Ok x, m') ->
  Verify.verify_record (lineage_verifier self) r content = Ok x /\
  journal m' = journal m ++ [CallVerifyRecord r content (Ok x)].
Proof.
  intros H. apply traced_ok in H as (m1 & Hl & ->).
  apply lift_ok in Hl as (-> & ->). split; reflexivity.
Qed.

Lemma scan_ok self content m x m' :
  scanner_detect self content m = (Ok x, m') ->
  x = detect (semantic_scanner self) content /\
  journal m' = journal m ++ [CallDetect content (Ok x)].
Proof.
  intros H. apply traced_ok in H as (m1 & Hl & ->).
  apply ret_ok in Hl as (-> & ->). split; reflexivity.
Qed.

Ltac step H :=
  let a := fresh "a" in let m1 := fresh "m" in let Hs := fresh "Hs" in
  apply bind_ok in H as (a & m1 & Hs & H).

Lemma semantic_stage_ok self doc content nr md m v m' :
  semantic_stage self doc content nr md m = (Ok v, m') ->
  exists scores,
    scores = detect (semantic_scanner self) content /\
    ((exists path, flagged scores true /\
        v = verdict_of (SemanticFailed nr scores path) /\
        journal m' = journal m ++
          [CallDetect content (Ok scores);
           CallWriteEvent "semantic_fail" doc "semantic" "quarantined"
             "Semantic anomaly detected" (PDict [("scores", scores)]) (Ok tt);
           CallSaveEvidenceBundle doc content "Semantic anomaly detected."
             (record_snapshot nr) scores
             (py_or md (PDict [("stage", PStr "semantic")])) (Ok path)])
     \/ (flagged scores false /\
        v = verdict_of (Accepted nr scores) /\
        journal m' = journal m ++
          [CallDetect content (Ok scores);
           CallWriteEvent "semantic_ok" doc "semantic" "accepted"
             "Semantic clean" (PDict [("scores", scores)]) (Ok tt);
           CallWriteEvent "accept" doc "pipeline_end" "accepted"
             "Document fully clean" (PDict [("scores", scores)]) (Ok tt)])).
Proof.
  unfold semantic_stage. intros H.
  step H. apply scan_ok in Hs as (Hsc & Hj1).
  step H. apply lift_ok in Hs as (Hget & ->).
  exists a. split; [exact Hsc|].
  destruct (truthy a0) eqn:Ht.
  - left. step H. apply write_event_ok in Hs as Hj2.
    step H. apply store_call_ok in Hs0 as Hj3.
    apply ret_ok in H as (-> & ->).
    exists a2. split; [exists a0; split; assumption|]. split; [reflexivity|].
    rewrite Hj3, Hj2, Hj1, <- !app_assoc. reflexivity.
  - right. step H. apply write_event_ok in Hs as Hj2.
    step H. apply write_event_ok in Hs0 as Hj3.
    apply ret_ok in H as (-> & ->).
    split; [exists a0; split; assumption|]. split; [reflexivity|].
    rewrite Hj3, Hj2, Hj1, <- !app_assoc. reflexivity.
Qed.


Lemma lineage_stage_ok self doc content r md m v m' :
  lineage_stage self doc content r md m = (Ok v, m') ->
  (exists why path,
      Verify.verify_record (lineage_verifier self) r content = Ok (false, why) /\
      v = verdict_of (LineageFailed r why path) /\
      journal m' = journal m ++
        [CallVerifyRecord r content (Ok (false, why));
         CallWriteEvent "lineage_fail" doc "lineage" "quarantined" why
           (PDict [("lineage_record", PDict (__dict__ r))]) (Ok tt);
         CallSaveEvidenceBundle doc content ("Lineage/Integrity failed: " +:+ why)
           (PDict (__dict__ r)) PNone
           (py_or md (PDict [("stage", PStr "lineage")])) (Ok path)])
  \/ (exists why m1,
      Verify.verify_record (lineage_verifier self) r content = Ok (true, why) /\
      journal m1 = journal m ++ lineage_calls self doc content (Some r) /\
      semantic_stage self doc content (Some r) md m1 = (Ok v, m')).
Proof.
  unfold lineage_stage. intros H.
  step H. apply verify_ok in Hs as (Hv & Hj1). destruct a as [ok why].
  destruct ok; cbn [negb] in H.
  - right. step H. apply write_event_ok in Hs as Hj2.
    exists why, m1. split; [exact Hv|]. split; [|exact H].
    rewrite Hj2, Hj1, <- app_assoc. cbn [lineage_calls]. now rewrite Hv.
  - left. step H. apply write_event_ok in Hs as Hj2.
    step H. apply store_call_ok in Hs0 as Hj3. apply ret_ok in H as (-> & ->).
    exists why, a0. split; [exact Hv|]. split; [reflexivity|].
    rewrite Hj3, Hj2, Hj1, <- !app_assoc. reflexivity.
Qed.

(** Every completed run is one of the four outcomes, reached under the
    conditions of [leads_to], with the calls of [calls_of]. *)
Lemma process_document_ok self doc content li md m v m' :
  process_document self doc content li md m = (Ok v, m') ->
  exists o, leads_to self content li o /\ v = verdict_of o /\
            journal m' = journal m ++ calls_of self doc content md o.
Proof.
  unfold process_document. intros H.
  step H. apply write_event_ok in Hs as Hj0.
  step H. apply lift_ok in Hs0 as (Hn & ->).
  destruct (negb (input_is_none li) && negb (is_Some_b a0)) eqn:Hc.
  - apply andb_true_iff in Hc as (Hi & Hnr).
    apply negb_true_iff in Hi. destruct a0 as [r|]; [discriminate|].
    destruct li as [r|raw]; [discriminate H|].
    step H. apply write_event_ok in Hs0 as Hj1.
    step H. apply store_call_ok in Hs1 as Hj2. apply ret_ok in H as (-> & ->).
    exists (Malformed raw a1). split; [repeat split; assumption|].
    split; [reflexivity|].
    rewrite Hj2, Hj1, Hj0, <- !app_assoc. reflexivity.
  - destruct a0 as [r|].
    + apply lineage_stage_ok in H
        as [(why & path & Hv & -> & Hj)|(why & m1 & Hv & Hj1 & H)].
      * exists (LineageFailed r why path). split; [split; assumption|].
        split; [reflexivity|]. rewrite Hj, Hj0, <- app_assoc. reflexivity.
      * apply semantic_stage_ok in H
          as (scores & Hsc & [(path & Hf & -> & Hj)|(Hf & -> & Hj)]).
        -- exists (SemanticFailed (Some r) scores path).
           split; [repeat split; eauto|]. split; [reflexivity|].
           rewrite Hj, Hj1, Hj0, <- !app_assoc. reflexivity.
        -- exists (Accepted (Some r) scores).
           split; [repeat split; eauto|]. split; [reflexivity|].
           rewrite Hj, Hj1, Hj0, <- !app_assoc. reflexivity.
    + cbn [is_Some_b negb] in Hc. rewrite andb_true_r in Hc.
      apply negb_false_iff in Hc.
      apply semantic_stage_ok in H
        as (scores & Hsc & [(path & Hf & -> & Hj)|(Hf & -> & Hj)]).
      * exists (SemanticFailed None scores path).
        split; [repeat split; assumption|]. split; [reflexivity|].
        rewrite Hj, Hj0, <- !app_assoc. reflexivity.
      * exists (Accepted None scores).
        split; [repeat split; assumption|]. split; [reflexivity|].
        rewrite Hj, Hj0, <- !app_assoc. reflexivity.
Qed.





End PipelineFacts.

Module VerdictFacts.
Import Py Runtime LineageChain Pipeline PipelineSpec.

Lemma verify_record_false_reasons v r content why :
  Verify.verify_record v r content = Ok (false, why) ->
  why = "Content hash mismatch." \/ why = "Invalid signature.".
Proof.
  unfold Verify.verify_record.
  destruct (negb (Verify.verify_content_hash v r content)).
  - intros [= <-]. now left.
  - destruct (Verify.verify_signature v r) as [[|]|e]; intros [= <-]. now right.
Qed.

Lemma quarantine_calls_passed self doc content nr rest :
  quarantine_calls (lineage_calls self doc content nr ++ rest) = quarantine_calls rest.
Proof. destruct nr; reflexivity. Qed.

Lemma audit_events_passed self doc content nr rest :
  audit_events (lineage_calls self doc content nr ++ rest)
  = match nr with
    | Some _ => ("lineage_ok", "lineage") :: audit_events rest
    | None => audit_events rest
    end.
Proof. destruct nr; reflexivity. Qed.

(** Two outcomes reached from the same inputs with collaborators that
    answer alike differ at most in the bundle path. *)
Lemma outcomes_agree self1 self2 doc content li md o1 o2 :
  (forall r, Verify.verify_record (lineage_verifier self1) r content
             = Verify.verify_record (lineage_verifier self2) r content) ->
  detect (semantic_scanner self1) content = detect (semantic_scanner self2) content ->
  leads_to self1 content li o1 -> leads_to self2 content li o2 ->
  status (verdict_of o1) = status (verdict_of o2) /\
  reason (verdict_of o1) = reason (verdict_of o2) /\
  is_Some_b (bundle_path (verdict_of o1)) = is_Some_b (bundle_path (verdict_of o2)) /\
  semantic_scores (verdict_of o1) = semantic_scores (verdict_of o2) /\
  map without_path (calls_of self1 doc content md o1)
  = map without_path (calls_of self2 doc content md o2).
Proof.
  intros Hv Hd H1 H2.
  destruct o1 as [raw1 p1|r1 w1 p1|n1 s1 p1|n1 s1];
    destruct o2 as [raw2 p2|r2 w2 p2|n2 s2 p2|n2 s2]; cbn [leads_to] in H1, H2;
    unfold lineage_passes, flagged in *.
  - destruct H1 as (-> & _ & _), H2 as ([= ->] & _). repeat split.
  - destruct H1 as (_ & _ & Hn), H2 as (Hn' & _). congruence.
  - destruct H1 as (_ & Hi & Hn), H2 as ((Hn' & Hp) & _).
    destruct n2; congruence.
  - destruct H1 as (_ & Hi & Hn), H2 as ((Hn' & Hp) & _).
    destruct n2; congruence.
  - destruct H1 as (Hn & _), H2 as (_ & _ & Hn'). congruence.
  - destruct H1 as (Hn & Hw), H2 as (Hn' & Hw').
    assert (r1 = r2) as -> by congruence.
    rewrite Hv in Hw. assert (w1 = w2) as -> by congruence. repeat split.
  - destruct H1 as (Hn & Hw), H2 as ((Hn' & Hp) & _).
    destruct n2 as [r2|]; [|congruence].
    assert (r1 = r2) as -> by congruence. destruct Hp as (why & Hp).
    rewrite Hv in Hw. congruence.
  - destruct H1 as (Hn & Hw), H2 as ((Hn' & Hp) & _).
    destruct n2 as [r2|]; [|congruence].
    assert (r1 = r2) as -> by congruence. destruct Hp as (why & Hp).
    rewrite Hv in Hw. congruence.
  - destruct H2 as (_ & Hi & Hn), H1 as ((Hn' & Hp) & _).
    destruct n1; congruence.
  - destruct H2 as (Hn & Hw), H1 as ((Hn' & Hp) & _).
    destruct n1 as [r1|]; [|congruence].
    assert (r1 = r2) as -> by congruence. destruct Hp as (why & Hp).
    rewrite Hv in Hp. congruence.
  - destruct H1 as ((Hn & Hp) & -> & _), H2 as ((Hn' & Hp') & -> & _).
    assert (n1 = n2) as -> by congruence. rewrite Hd.
    repeat split. destruct n2; unfold calls_of, lineage_calls; [rewrite Hv|]; reflexivity.
  - destruct H1 as (_ & -> & (x & Hx & Ht)), H2 as (_ & -> & (y & Hy & Ht')).
    rewrite Hd in Hx. congruence.
  - destruct H2 as (_ & Hi & Hn), H1 as ((Hn' & Hp) & _).
    destruct n1; congruence.
  - destruct H2 as (Hn & Hw), H1 as ((Hn' & Hp) & _).
    destruct n1 as [r1|]; [|congruence].
    assert (r1 = r2) as -> by congruence. destruct Hp as (why & Hp).
    rewrite Hv in Hp. congruence.
  - destruct H1 as (_ & -> & (x & Hx & Ht)), H2 as (_ & -> & (y & Hy & Ht')).
    rewrite Hd in Hx. congruence.
  - destruct H1 as ((Hn & Hp) & -> & _), H2 as ((Hn' & Hp') & -> & _).
    assert (n1 = n2) as -> by congruence. rewrite Hd.
    repeat split. destruct n2; unfold calls_of, lineage_calls; [rewrite Hv|]; reflexivity.
Qed.

End VerdictFacts.

Module NormalizeFacts.
Import Py LineageChain Pipeline.





End NormalizeFacts.

Import Pipeline PipelineSpec.

(** C5, counterexample.  The run on an incomplete lineage payload ends
    quarantined with reason "Invalid lineage record structure."; the one
    call to the quarantine store, whose path the verdict carries, was issued
    with another reason string. *)
Lemma store_reason_differs_from_verdict_reason :
  fst SampleRuns.malformed_run
  = Ok (mkVerdict "quarantined" "Invalid lineage record structure."
          (Some "data/quarantine/20240102T030402Z_doc-1") None) /\
  quarantine_calls (journal (snd SampleRuns.malformed_run))
  = [("Lineage record deserialization failure.",
      Ok "data/quarantine/20240102T030402Z_doc-1")].
Proof. split; vm_compute; reflexivity. Qed.

(** The same at the two other quarantine terminals. *)
Example store_reason_at_lineage_failure :
  fst SampleRuns.tampered_run
  = Ok (mkVerdict "quarantined" "Invalid signature."
          (Some "data/quarantine/20240102T030402Z_doc-2") None) /\
  quarantine_calls (journal (snd SampleRuns.tampered_run))
  = [("Lineage/Integrity failed: Invalid signature.",
      Ok "data/quarantine/20240102T030402Z_doc-2")].
Proof. split; vm_compute; reflexivity. Qed.

Example store_reason_at_semantic_failure :
  fst SampleRuns.poisoned_run
  = Ok (mkVerdict "quarantined" "Semantic anomaly."
          (Some "data/quarantine/20240102T030402Z_doc-3")
          (Some (PDict [("total_score", PFloat "0.9"); ("is_suspicious", PBool true)]))) /\
  quarantine_calls (journal (snd SampleRuns.poisoned_run))
  = [("Semantic anomaly detected.", Ok "data/quarantine/20240102T030402Z_doc-3")].
Proof. split; vm_compute; reflexivity. Qed.

(** C5, amended.  A run that ends quarantined made exactly one call to the
    quarantine store, and the verdict's [bundle_path] is the path that call
    returned.  The reason handed to the store is a fixed companion of the
    verdict's reason: "Lineage record deserialization failure." for
    "Invalid lineage record structure."; "Lineage/Integrity failed: "
    followed by the verifier's reason when the verdict carries the
    verifier's reason; "Semantic anomaly detected." for "Semantic anomaly.". *)
Theorem quarantine_verdict_carries_store_path (self : RAGSecurityPipeline)
    (document_id content : string) (lineage_record : lineage_input)
    (metadata : pyval) (m m' : Machine) (v : Verdict) :
  process_document self document_id content lineage_record metadata m = (Ok v, m') ->
  status v = "quarantined" ->
  exists calls path why,
    journal m' = journal m ++ calls /\
    bundle_path v = Some path /\
    quarantine_calls calls = [(why, Ok path)] /\
    ((Pipeline.reason v = "Invalid lineage record structure." /\
      why = "Lineage record deserialization failure.") \/
     ((Pipeline.reason v = "Content hash mismatch." \/
       Pipeline.reason v = "Invalid signature.") /\
      why = "Lineage/Integrity failed: " +:+ Pipeline.reason v) \/
     (Pipeline.reason v = "Semantic anomaly." /\ why = "Semantic anomaly detected.")).
Proof.
  intros Hrun Hq.
  apply PipelineFacts.process_document_ok in Hrun as (o & Hlead & -> & Hj).
  exists (calls_of self document_id content metadata o).
  destruct o as [raw p|r w p|n s p|n s]; cbn [verdict_of status] in Hq; [..|discriminate Hq].
  - exists p, "Lineage record deserialization failure.".
    repeat split; [exact Hj|]. left. split; reflexivity.
  - exists p, ("Lineage/Integrity failed: " +:+ w).
    repeat split; [exact Hj|]. right; left. split; [|reflexivity].
    destruct Hlead as (_ & Hv). exact (VerdictFacts.verify_record_false_reasons _ _ _ _ Hv).
  - exists p, "Semantic anomaly detected.".
    split; [exact Hj|]. split; [reflexivity|].
    split; [|right; right; split; reflexivity].
    unfold calls_of. cbn [quarantine_calls flat_map app].
    change (flat_map ?f ?l) with (quarantine_calls l).
    now rewrite VerdictFacts.quarantine_calls_passed.
Qed.

Lemma quarantine_verdict_carries_store_path_witness :
  exists calls path why,
    journal (snd SampleRuns.tampered_run)
    = journal (Samples.fresh Samples.healthy) ++ calls /\
    Some "data/quarantine/20240102T030402Z_doc-2" = Some path /\
    quarantine_calls calls = [(why, Ok path)] /\
    (("Invalid signature." = "Invalid lineage record structure." /\
      why = "Lineage record deserialization failure.") \/
     (("Invalid signature." = "Content hash mismatch." \/
       "Invalid signature." = "Invalid signature.") /\
      why = "Lineage/Integrity failed: " +:+ "Invalid signature.") \/
     ("Invalid signature." = "Semantic anomaly." /\ why = "Semantic anomaly detected.")).
Proof.
  apply (quarantine_verdict_carries_store_path SamplePipeline.pipeline "doc-2"
           SampleRecords.content
           (InValue (PDict (__dict__ SampleRecords.reattributed))) PNone
           (Samples.fresh Samples.healthy) (snd SampleRuns.tampered_run)
           (mkVerdict "quarantined" "Invalid signature."
              (Some "data/quarantine/20240102T030402Z_doc-2") None)).
  - vm_compute. reflexivity.
  - reflexivity.
Defined.




(** C9.  Two runs of [process_document] on the same inputs, by pipelines
    whose verifier and scorer answer alike on these inputs, that both
    return, return verdicts with the same status, reason, presence of a
    bundle path and scores, and make the same collaborator calls with the
    same results, the returned bundle path apart; the machines they start
    from (clock, files, chain head) may differ. *)
Theorem process_document_deterministic (self1 self2 : RAGSecurityPipeline)
    (document_id content : string) (lineage_record : lineage_input)
    (metadata : pyval) (m1 m1' m2 m2' : Machine) (v1 v2 : Verdict) :
  (forall r, Verify.verify_record (lineage_verifier self1) r content
             = Verify.verify_record (lineage_verifier self2) r content) ->
  detect (semantic_scanner self1) content = detect (semantic_scanner self2) content ->
  process_document self1 document_id content lineage_record metadata m1 = (Ok v1, m1') ->
  process_document self2 document_id content lineage_record metadata m2 = (Ok v2, m2') ->
  status v1 = status v2 /\
  Pipeline.reason v1 = Pipeline.reason v2 /\
  is_Some_b (bundle_path v1) = is_Some_b (bundle_path v2) /\
  semantic_scores v1 = semantic_scores v2 /\
  exists calls1 calls2,
    journal m1' = journal m1 ++ calls1 /\
    journal m2' = journal m2 ++ calls2 /\
    map without_path calls1 = map without_path calls2 /\
    audit_events calls1 = audit_events calls2.
Proof.
  intros Hv Hd H1 H2.
  apply PipelineFacts.process_document_ok in H1 as (o1 & Hl1 & -> & Hj1).
  apply PipelineFacts.process_document_ok in H2 as (o2 & Hl2 & -> & Hj2).
  destruct (VerdictFacts.outcomes_agree self1 self2 document_id content lineage_record
              metadata o1 o2 Hv Hd Hl1 Hl2) as (Hs & Hr & Hb & Hsc & Hc).
  repeat (split; [assumption|]).
  exists (calls_of self1 document_id content metadata o1),
         (calls_of self2 document_id content metadata o2).
  repeat (split; [assumption|]).
  assert (Hev : forall l, audit_events (map without_path l) = audit_events l).
  { induction l as [|c l IH]; [reflexivity|].
    cbn [map]. unfold audit_events in *. cbn [flat_map]. rewrite IH.
    destruct c as [| | |? ? ? ? ? ? [|]]; reflexivity. }
  rewrite <- (Hev (calls_of self1 _ _ _ o1)), <- (Hev (calls_of self2 _ _ _ o2)).
  now rewrite Hc.
Qed.

Lemma process_document_deterministic_witness :
  "quarantined" = "quarantined" /\
  "Invalid signature." = "Invalid signature." /\
  is_Some_b (Some "data/quarantine/20240102T030402Z_doc-2")
  = is_Some_b (Some "elsewhere/20250607T080902Z_doc-2") /\
  @None pyval = None /\
  exists calls1 calls2,
    journal (snd SampleRuns.tampered_run)
    = journal (Samples.fresh Samples.healthy) ++ calls1 /\
    journal (snd SampleRuns.tampered_rerun) = journal SampleRuns.later ++ calls2 /\
    map without_path calls1 = map without_path calls2 /\
    audit_events calls1 = audit_events calls2.
Proof.
  apply (process_document_deterministic SamplePipeline.pipeline
           (mkRAGSecurityPipeline SampleRecords.verifier SamplePipeline.scorer
              (Quarantine.mkQuarantineManager "elsewhere"))
           "doc-2" SampleRecords.content
           (InValue (PDict (__dict__ SampleRecords.reattributed))) PNone
           (Samples.fresh Samples.healthy) (snd SampleRuns.tampered_run)
           SampleRuns.later (snd SampleRuns.tampered_rerun)
           (mkVerdict "quarantined" "Invalid signature."
              (Some "data/quarantine/20240102T030402Z_doc-2") None)
           (mkVerdict "quarantined" "Invalid signature."
              (Some "elsewhere/20250607T080902Z_doc-2") None)).
  - intros r. reflexivity.
  - reflexivity.
  - vm_compute. reflexivity.
  - vm_compute. reflexivity.
Defined.



(** The defect of C7 seen from the pipeline: a record that arrives with a
    non-ASCII signature makes [process_document] raise [TypeError] after
    [ingest_start]; nothing is quarantined and no [lineage_fail] is logged. *)
Example non_ascii_signature_escapes_quarantine :
  fst SampleRuns.forged_run = Raise TypeError /\
  quarantine_calls (journal (snd SampleRuns.forged_run)) = [] /\
  audit_events (journal (snd SampleRuns.forged_run)) = [("ingest_start", "start")].
Proof. repeat split; vm_compute; reflexivity. Qed.

(** * Further properties *)

(** ** The audit log, further *)

Module AuditMore.
Import Py Runtime Audit AuditSpec MonadFacts Frames.

Lemma appended_refl p m : appended_to p m m.
Proof. exists EmptyString. now rewrite StringFacts.append_nil_r. Qed.

Lemma appended_trans p m1 m2 m3 :
  appended_to p m1 m2 -> appended_to p m2 m3 -> appended_to p m1 m3.
Proof.
  intros (s1 & H1) (s2 & H2). exists (s1 +:+ s2).
  now rewrite H2, H1, StringFacts.append_assoc.
Qed.

Lemma write_appends ev m :
  appended_to (path (audit_log m)) m (snd (write ev m)) /\
  path (audit_log (snd (write ev m))) = path (audit_log m).
Proof.
  rewrite AuditFacts.write_run. cbv zeta.
  destruct (disk (world m) (io_ops (world m))); cbn [snd]; (split; [|reflexivity]).
  - eexists. unfold advanced. cbn [world]. now rewrite AuditFacts.read_set_file_eq.
  - exists EmptyString. unfold advanced, Sys.read_file. cbn [world files].
    now rewrite StringFacts.append_nil_r.
Qed.

End AuditMore.

Import Py Runtime Audit AuditSpec Frames.







(** X4.  The log is append-only: after any sequence of [write_event] calls,
    whichever of them fail, the log file is its earlier content followed by
    what was appended. *)
Theorem write_events_append_only (evs : list Event) (m : Machine) :
  appended_to (path (audit_log m)) m (snd (write_events evs m)).
Proof.
  revert m. induction evs as [|ev evs IH]; intros m; [apply AuditMore.appended_refl|].
  cbn [write_events]. unfold bind.
  destruct (AuditMore.write_appends ev m) as (Ha & Hp).
  destruct (write ev m) as [[u|e] m1] eqn:E; cbn [snd] in *.
  - eapply AuditMore.appended_trans; [exact Ha|]. rewrite <- Hp. apply IH.
  - exact Ha.
Qed.

(** ** Lineage records and signatures, further *)

Module DigestFacts.
Import Bytes SignatureSpec.

Lemma hex_digit_hex n : is_hex_digit (hex_digit n) = true.
Proof.
  unfold hex_digit. cbv zeta.
  assert (Hb : 0 <= Z.land n 15 < 16).
  { change 15 with (Z.ones 4). rewrite Z.land_ones by lia. apply Z.mod_pos_bound. lia. }
  set (d := Z.land n 15) in *.
  assert (Hd : d = 0 \/ d = 1 \/ d = 2 \/ d = 3 \/ d = 4 \/ d = 5 \/ d = 6 \/ d = 7 \/
               d = 8 \/ d = 9 \/ d = 10 \/ d = 11 \/ d = 12 \/ d = 13 \/ d = 14 \/ d = 15)
    by lia.
  repeat (destruct Hd as [-> | Hd]; [reflexivity|]). subst d. rewrite Hd. reflexivity.
Qed.

Lemma is_hex_append a b : is_hex (a +:+ b) = is_hex a && is_hex b.
Proof.
  induction a as [|c a IH]; [reflexivity|].
  change (is_hex (String c (a +:+ b)) = is_hex (String c a) && is_hex b).
  cbn [is_hex]. rewrite IH. now rewrite andb_assoc.
Qed.

Lemma hex_of_bytes_hex bs : is_hex (hex_of_bytes bs) = true.
Proof.
  induction bs as [|b bs IH]; [reflexivity|].
  cbn [hex_of_bytes]. rewrite is_hex_append, IH.
  unfold hex_byte. cbn [is_hex]. now rewrite !hex_digit_hex.
Qed.

Lemma hex_of_bytes_length bs :
  String.length (hex_of_bytes bs) = (2 * length bs)%nat.
Proof.
  induction bs as [|b bs IH]; [reflexivity|].
  cbn [hex_of_bytes]. rewrite StringFacts.length_append, IH.
  unfold hex_byte. cbn [String.length length]. lia.
Qed.

Lemma digest_length msg : length (SHA256.digest msg) = 32%nat.
Proof. unfold SHA256.digest. cbv zeta. rewrite !length_app. reflexivity. Qed.

Lemma hexdigest_length msg : String.length (SHA256.hexdigest msg) = 64%nat.
Proof. unfold SHA256.hexdigest. now rewrite hex_of_bytes_length, digest_length. Qed.

End DigestFacts.

Import Py LineageChain Verify Simulation SignatureSpec LineageSpec.

(** X5.  Whatever the key and the content, a signature made by [sign] is
    sixty-four lowercase hexadecimal digits, and so is a content hash. *)
Theorem sign_gives_64_hex_digits (s : Signer.HMACSigner) (content : list Bytes.byte)
    (text : string) :
  String.length (Signer.sign s content) = 64%nat /\
  is_hex (Signer.sign s content) = true /\
  String.length (compute_content_hash text) = 64%nat /\
  is_hex (compute_content_hash text) = true.
Proof.
  unfold Signer.sign, HMAC.hexdigest, HMAC.digest, compute_content_hash, sha256_hex.
  cbv zeta. split; [|split; [|split]].
  - now rewrite DigestFacts.hex_of_bytes_length, DigestFacts.digest_length.
  - apply DigestFacts.hex_of_bytes_hex.
  - apply DigestFacts.hexdigest_length.
  - apply DigestFacts.hex_of_bytes_hex.
Qed.


(** X7.  [verify_record] answers [True] only for a record whose
    [content_hash] is the SHA-256 of the content and whose signature is the
    MAC of its core payload under the verifier's key. *)
Theorem verify_record_accepts_only_signed (v : LineageVerifier) (r : LineageRecord)
    (content why : string) :
  verify_record v r content = Ok (true, why) ->
  content_hash r = PStr (compute_content_hash content) /\
  signature r = PStr (Signer.sign (signer v) (core_payload_bytes r)) /\
  why = "Lineage and integrity verified.".
Proof.
  unfold verify_record.
  destruct (verify_content_hash v r content) eqn:Hc; cbn [negb]; [|discriminate].
  apply VerifyFacts.content_hash_checked in Hc.
  unfold verify_signature, Signer.verify, Signer.compare_digest.
  destruct (signature r) as [| | | |s| |]; cbn [is_none]; try discriminate.
  destruct (Bytes.is_ascii (Signer.sign (signer v) (core_payload_bytes r))
            && Bytes.is_ascii s); [|discriminate].
  destruct (String.eqb (Signer.sign (signer v) (core_payload_bytes r)) s) eqn:E;
    [|discriminate].
  apply String.eqb_eq in E. intros [= <-]. subst s. repeat split. exact Hc.
Qed.

Lemma verify_record_accepts_only_signed_witness :
  content_hash SampleRecords.signed
  = PStr (compute_content_hash SampleRecords.content) /\
  signature SampleRecords.signed
  = PStr (Signer.sign (signer SampleRecords.verifier)
            (core_payload_bytes SampleRecords.signed)) /\
  "Lineage and integrity verified." = "Lineage and integrity verified.".
Proof.
  apply (verify_record_accepts_only_signed SampleRecords.verifier SampleRecords.signed
           SampleRecords.content "Lineage and integrity verified.").
  vm_compute. reflexivity.
Defined.


(** X9.  The signed text lists the seven core fields in lexicographic key
    order and does not depend on the signature; [to_json] is the same text
    with the signature between [prev_hash] and [source]. *)
Theorem core_payload_is_sorted_and_unsigned (r : LineageRecord) (g : pyval) :
  core_payload_bytes r = Bytes.encode_utf8 (core_layout r) /\
  core_payload_bytes (set_signature g r) = core_payload_bytes r /\
  to_json r = full_layout r.
Proof.
  split; [|split; [reflexivity|]].
  - unfold core_payload_bytes, core_layout, jfield, Json.dumps, core_payload. f_equal.
    destruct r. cbn [document_id version content_hash prev_hash created_at author source].
    rewrite JsonFacts.encode_dict.
    with_strategy opaque [String.append Json.encode Json.encode_str] cbv.
    rewrite !StringFacts.append_assoc. reflexivity.
  - unfold to_json, full_layout, jfield, Json.dumps, __dict__.
    destruct r.
    cbn [document_id version content_hash prev_hash created_at author source signature].
    rewrite JsonFacts.encode_dict.
    with_strategy opaque [String.append Json.encode Json.encode_str] cbv.
    rewrite !StringFacts.append_assoc. reflexivity.
Qed.

(** X10.  The tampering of the attack scenarios: a copy of a record's dict
    with another author and a made-up [content_hash] that is not sixty-four
    characters long still normalizes to a record, and [verify_record]
    reports it as a content hash mismatch, whatever the content and the
    key. *)
Theorem tampered_dict_is_a_hash_mismatch (v : LineageVerifier) (r : LineageRecord)
    (fake content : string) :
  String.length fake <> 64%nat ->
  LineageRecord_init (Scenarios.tamper fake r) = Ok (tampered_record fake r) /\
  verify_record v (tampered_record fake r) content
  = Ok (false, "Content hash mismatch.").
Proof.
  intros Hlen. split; [destruct r; reflexivity|].
  unfold verify_record.
  destruct (verify_content_hash v (tampered_record fake r) content) eqn:Hc; [|reflexivity].
  apply VerifyFacts.content_hash_checked in Hc. cbn [tampered_record content_hash] in Hc.
  injection Hc as ->. exfalso. apply Hlen.
  apply DigestFacts.hexdigest_length.
Qed.

Lemma tampered_dict_is_a_hash_mismatch_witness :
  LineageRecord_init (Scenarios.tamper "DEADBEEF" SampleRecords.signed)
  = Ok (tampered_record "DEADBEEF" SampleRecords.signed) /\
  verify_record SampleRecords.verifier (tampered_record "DEADBEEF" SampleRecords.signed)
    "This document looks innocent, but the lineage record is tampered."
  = Ok (false, "Content hash mismatch.").
Proof.
  apply (tampered_dict_is_a_hash_mismatch SampleRecords.verifier SampleRecords.signed
           "DEADBEEF" "This document looks innocent, but the lineage record is tampered.").
  cbn. lia.
Defined.

(** ** The quarantine store, further *)

Module StoreMore.
Import Py Runtime Quarantine QuarantineSpec BundleSpec MonadFacts.

(** a completed store call, in full *)
Lemma store_effects self doc content reason lr ds md m bp m' :
  save_evidence_bundle self doc content reason lr ds md m = (Ok bp, m') ->
  bp = os_path_join (quarantine_dir self)
         (bundle_name (clock (world m) (ticks (world m))) doc) /\
  files (world m') = bundle_files bp content reason lr ds md (files (world m)) /\
  dirs (world m') = {[bp]} ∪ dirs (world m) /\
  ticks (world m') = S (ticks (world m)) /\
  io_ops (world m') = (io_ops (world m) + 3 + artifact_count lr ds md)%nat /\
  clock (world m') = clock (world m) /\ disk (world m') = disk (world m) /\
  audit_log m' = audit_log m /\ journal m' = journal m.
Proof.
  destruct m as [[ck tk dk ops fs dd] a j].
  unfold save_evidence_bundle, _bundle_path, _write_json, _write_text,
    Sys.write_file, Sys.makedirs, bundle_files, artifact, artifact_count.
  intros H.
  destruct (truthy lr), (truthy ds), (truthy md);
    cbv beta iota zeta delta
      [bind ret lift raise get_world put_world Sys.io_op Sys.now Sys.set_file
       world audit_log journal clock ticks disk io_ops files dirs] in H;
    repeat match type of H with
           | context [dk ?n] => destruct (dk n); [|discriminate H]
           end;
    injection H as <- <-; cbn [world files dirs ticks io_ops clock disk audit_log journal];
    repeat split; lia.
Qed.



End StoreMore.

Import Py Runtime Quarantine QuarantineSpec BundleSpec.





(** X13.  Two calls for the same document id whose clock readings fall in
    the same second return the same bundle path; the second call overwrites
    the content and the reason, and an artifact the first call wrote stays
    in the bundle when the second call has none to write. *)
Theorem same_second_bundles_collide (self : QuarantineManager)
    (document_id c1 r1 c2 r2 : string) (l1 d1 x1 l2 d2 x2 : pyval)
    (m m1 m2 : Machine) (p1 p2 : string) :
  save_evidence_bundle self document_id c1 r1 l1 d1 x1 m = (Ok p1, m1) ->
  save_evidence_bundle self document_id c2 r2 l2 d2 x2 m1 = (Ok p2, m2) ->
  Clock.strftime_bundle (clock (world m) (S (ticks (world m))))
  = Clock.strftime_bundle (clock (world m) (ticks (world m))) ->
  truthy l1 = true -> truthy l2 = false ->
  p2 = p1 /\
  files (world m2) !! os_path_join p1 "content.txt" = Some c2 /\
  files (world m2) !! os_path_join p1 "reason.txt" = Some r2 /\
  files (world m2) !! os_path_join p1 "lineage_record.json" = Some (json_text l1).
Proof.
  intros H1 H2 Hsec Ht1 Ht2.
  destruct (StoreMore.store_effects _ _ _ _ _ _ _ _ _ _ H1)
    as (Hp1 & Hf1 & _ & Htk & _ & Hck & _).
  destruct (StoreMore.store_effects _ _ _ _ _ _ _ _ _ _ H2)
    as (Hp2 & Hf2 & _).
  assert (Hp : p2 = p1).
  { rewrite Hp2, Hp1, Hck, Htk. unfold bundle_name. cbv zeta. now rewrite Hsec. }
  clear Hp2. subst p2. split; [reflexivity|].
  assert (Hapart : forall a b, starts_with_sep a = false -> starts_with_sep b = false ->
            a <> b -> os_path_join p1 a <> os_path_join p1 b)
    by (intros; now apply QuarantineFacts.names_apart).
  rewrite Hf2. unfold bundle_files. repeat split.
  - rewrite !QuarantineFacts.lookup_artifact_ne by (apply Hapart; [reflexivity..|discriminate]).
    rewrite lookup_insert_ne by (apply Hapart; [reflexivity..|discriminate]).
    now rewrite lookup_insert_eq.
  - rewrite !QuarantineFacts.lookup_artifact_ne by (apply Hapart; [reflexivity..|discriminate]).
    now rewrite lookup_insert_eq.
  - rewrite !QuarantineFacts.lookup_artifact_ne by (apply Hapart; [reflexivity..|discriminate]).
    rewrite QuarantineFacts.lookup_artifact_eq, Ht2.
    rewrite !lookup_insert_ne by (apply Hapart; [reflexivity..|discriminate]).
    rewrite Hf1. unfold bundle_files.
    rewrite !QuarantineFacts.lookup_artifact_ne by (apply Hapart; [reflexivity..|discriminate]).
    now rewrite QuarantineFacts.lookup_artifact_eq, Ht1.
Qed.

Lemma same_second_bundles_collide_witness :
  "data/quarantine/20240102T030405Z_doc_1" = "data/quarantine/20240102T030405Z_doc_1" /\
  files (world (snd CollisionSample.second_save))
    !! os_path_join "data/quarantine/20240102T030405Z_doc_1" "content.txt"
  = Some "second text" /\
  files (world (snd CollisionSample.second_save))
    !! os_path_join "data/quarantine/20240102T030405Z_doc_1" "reason.txt"
  = Some "second reason" /\
  files (world (snd CollisionSample.second_save))
    !! os_path_join "data/quarantine/20240102T030405Z_doc_1" "lineage_record.json"
  = Some (json_text (PDict [("version", PInt 1)])).
Proof.
  apply (same_second_bundles_collide ExtraSamples.store "doc 1" "first text"
           "first reason" "second text" "second reason"
           (PDict [("version", PInt 1)]) PNone PNone PNone PNone PNone
           (Samples.fresh ExtraSamples.same_second) (snd CollisionSample.first_save)
           (snd CollisionSample.second_save)).
  - vm_compute. reflexivity.
  - vm_compute. reflexivity.
  - reflexivity.
  - reflexivity.
  - reflexivity.
Defined.

(** ** The pipeline, further *)

Module FrameFacts.
Import Py Runtime Frames MonadFacts.

Section Respects.
Variable R : Machine -> Machine -> Prop.
Hypothesis R_refl : forall m, R m m.
Hypothesis R_trans : forall a b c, R a b -> R b c -> R a c.




End Respects.


















End FrameFacts.

Module PipelineMore.
Import Py Runtime LineageChain Pipeline PipelineSpec BundleSpec MonadFacts.

(** [verify_record] answers [True] only for a matching, signed record *)
Lemma accepted_record v r content why :
  Verify.verify_record v r content = Ok (true, why) ->
  content_hash r = PStr (compute_content_hash content) /\
  signature r = PStr (Signer.sign (Verify.signer v) (core_payload_bytes r)).
Proof.
  unfold Verify.verify_record.
  destruct (Verify.verify_content_hash v r content) eqn:Hc; cbn [negb]; [|discriminate].
  apply VerifyFacts.content_hash_checked in Hc.
  unfold Verify.verify_signature, Signer.verify, Signer.compare_digest.
  destruct (signature r) as [| | | |s| |]; cbn [is_none]; try discriminate.
  destruct (Bytes.is_ascii (Signer.sign (Verify.signer v) (core_payload_bytes r))
            && Bytes.is_ascii s); [|discriminate].
  destruct (String.eqb (Signer.sign (Verify.signer v) (core_payload_bytes r)) s) eqn:E;
    [|discriminate].
  apply String.eqb_eq in E. intros _. subst s. split; [exact Hc | reflexivity].
Qed.

Lemma input_none li : input_is_none li = true -> li = InValue PNone.
Proof. destruct li as [r|[]]; cbn; intros H; try discriminate H; reflexivity. Qed.

Lemma detect_results_passed self doc content nr rest :
  detect_results (lineage_calls self doc content nr ++ rest) = detect_results rest.
Proof. destruct nr; reflexivity. Qed.


Lemma init_of_dict r : LineageRecord_init (__dict__ r) = Ok r.
Proof. destruct r. reflexivity. Qed.

End PipelineMore.

Import Py Runtime LineageChain Pipeline PipelineSpec BundleSpec Frames.

(** X14.  Every verdict [process_document] returns has status "accepted"
    or "quarantined"; it carries a bundle path exactly when it is
    quarantined, and exactly then one call to the quarantine store was made;
    it carries scores exactly when the scorer was called, and they are what
    the scorer returned; the first audit event of the run is
    [ingest_start]. *)
Theorem verdict_matches_the_calls (self : RAGSecurityPipeline)
    (document_id content : string) (lineage_record : lineage_input)
    (metadata : pyval) (m m' : Machine) (v : Verdict) :
  process_document self document_id content lineage_record metadata m = (Ok v, m') ->
  exists calls,
    journal m' = journal m ++ calls /\
    (status v = "accepted" \/ status v = "quarantined") /\
    is_Some_b (bundle_path v) = String.eqb (status v) "quarantined" /\
    length (quarantine_calls calls)
    = (if String.eqb (status v) "quarantined" then 1 else 0)%nat /\
    semantic_scores v = head (detect_results calls) /\
    (length (detect_results calls) <= 1)%nat /\
    head (audit_events calls) = Some ("ingest_start", "start").
Proof.
  intros Hrun.
  apply PipelineFacts.process_document_ok in Hrun as (o & _ & -> & Hj).
  exists (calls_of self document_id content metadata o). split; [exact Hj|].
  destruct o as [raw p|r w p|n s p|n s]; cbn [verdict_of status bundle_path semantic_scores].
  - repeat split; cbn; auto.
  - repeat split; cbn; auto.
  - unfold calls_of. cbn [quarantine_calls detect_results flat_map app].
    change (flat_map ?f (lineage_calls ?a ?b ?c ?d ++ ?l))
      with (quarantine_calls (lineage_calls a b c d ++ l)) at 1.
    rewrite VerdictFacts.quarantine_calls_passed.
    change (flat_map ?f (lineage_calls ?a ?b ?c ?d ++ ?l))
      with (detect_results (lineage_calls a b c d ++ l)).
    rewrite PipelineMore.detect_results_passed.
    repeat split; cbn; auto.
  - unfold calls_of. cbn [quarantine_calls detect_results flat_map app].
    change (flat_map ?f (lineage_calls ?a ?b ?c ?d ++ ?l))
      with (quarantine_calls (lineage_calls a b c d ++ l)) at 1.
    rewrite VerdictFacts.quarantine_calls_passed.
    change (flat_map ?f (lineage_calls ?a ?b ?c ?d ++ ?l))
      with (detect_results (lineage_calls a b c d ++ l)).
    rewrite PipelineMore.detect_results_passed.
    repeat split; cbn; auto.
Qed.

Lemma verdict_matches_the_calls_witness :
  exists calls,
    journal (snd SampleRuns.tampered_run)
    = journal (Samples.fresh Samples.healthy) ++ calls /\
    ("quarantined" = "accepted" \/ "quarantined" = "quarantined") /\
    is_Some_b (Some "data/quarantine/20240102T030402Z_doc-2")
    = String.eqb "quarantined" "quarantined" /\
    length (quarantine_calls calls)
    = (if String.eqb "quarantined" "quarantined" then 1 else 0)%nat /\
    @None pyval = head (detect_results calls) /\
    (length (detect_results calls) <= 1)%nat /\
    head (audit_events calls) = Some ("ingest_start", "start").
Proof.
  apply (verdict_matches_the_calls SamplePipeline.pipeline "doc-2" SampleRecords.content
           (InValue (PDict (__dict__ SampleRecords.reattributed))) PNone
           (Samples.fresh Samples.healthy) (snd SampleRuns.tampered_run)
           (mkVerdict "quarantined" "Invalid signature."
              (Some "data/quarantine/20240102T030402Z_doc-2") None)).
  vm_compute. reflexivity.
Defined.

(** X15.  [process_document] accepts a document only when the scorer's
    [is_suspicious] is falsy and the lineage input is either [None] or
    normalizes to a record whose [content_hash] is the SHA-256 of the
    content and whose signature is the MAC of its core payload under the
    verifier's key; an accepted verdict has no bundle path. *)
Theorem accepted_only_if_checks_pass (self : RAGSecurityPipeline)
    (document_id content : string) (lineage_record : lineage_input)
    (metadata : pyval) (m m' : Machine) (v : Verdict) :
  process_document self document_id content lineage_record metadata m = (Ok v, m') ->
  status v = "accepted" ->
  (lineage_record = InValue PNone \/
   exists r,
     _normalize_lineage_record lineage_record = Ok (Some r) /\
     content_hash r = PStr (compute_content_hash content) /\
     signature r
     = PStr (Signer.sign (Verify.signer (lineage_verifier self)) (core_payload_bytes r))) /\
  flagged (detect (semantic_scanner self) content) false /\
  bundle_path v = None /\
  semantic_scores v = Some (detect (semantic_scanner self) content).
Proof.
  intros Hrun Hs.
  apply PipelineFacts.process_document_ok in Hrun as (o & Hl & -> & _).
  destruct o as [raw p|r w p|n s p|n s]; cbn [verdict_of status] in Hs; try discriminate Hs.
  destruct Hl as ((Hn & Hp) & -> & Hf).
  split; [|repeat split; assumption].
  destruct n as [r|].
  - right. exists r. destruct Hp as (why & Hv).
    destruct (PipelineMore.accepted_record _ _ _ _ Hv) as (Hc & Hg).
    repeat split; assumption.
  - left. now apply PipelineMore.input_none.
Qed.

Lemma accepted_only_if_checks_pass_witness :
  (InRecord SampleRecords.signed = InValue PNone \/
   exists r,
     _normalize_lineage_record (InRecord SampleRecords.signed) = Ok (Some r) /\
     content_hash r = PStr (compute_content_hash SampleRecords.content) /\
     signature r
     = PStr (Signer.sign (Verify.signer (lineage_verifier SamplePipeline.pipeline))
               (core_payload_bytes r))) /\
  flagged (detect (semantic_scanner SamplePipeline.pipeline) SampleRecords.content) false /\
  @None string = None /\
  Some (PDict [("total_score", PFloat "0.1"); ("is_suspicious", PBool false)])
  = Some (detect (semantic_scanner SamplePipeline.pipeline) SampleRecords.content).
Proof.
  apply (accepted_only_if_checks_pass SamplePipeline.pipeline "doc-clean"
           SampleRecords.content (InRecord SampleRecords.signed)
           (PDict [("scenario", PStr "clean")]) (Samples.fresh Samples.healthy)
           (snd SampleRuns.clean_run)
           (mkVerdict "accepted" "Clean document." None
              (Some (PDict [("total_score", PFloat "0.1");
                            ("is_suspicious", PBool false)])))).
  - vm_compute. reflexivity.
  - reflexivity.
Defined.






(** X19.  Passing a record and passing a copy of its [__dict__] are the
    same to the pipeline: the dict normalizes back to the record and
    [process_document] behaves identically on both. *)
Theorem record_and_its_dict_are_interchangeable (self : RAGSecurityPipeline)
    (document_id content : string) (r : LineageRecord) (metadata : pyval)
    (m : Machine) :
  LineageRecord_init (__dict__ r) = Ok r /\
  _normalize_lineage_record (InValue (PDict (__dict__ r))) = Ok (Some r) /\
  process_document self document_id content (InValue (PDict (__dict__ r))) metadata m
  = process_document self document_id content (InRecord r) metadata m.
Proof.
  assert (Hn : _normalize_lineage_record (InValue (PDict (__dict__ r))) = Ok (Some r)).
  { cbn [_normalize_lineage_record]. now rewrite PipelineMore.init_of_dict. }
  split; [apply PipelineMore.init_of_dict|]. split; [exact Hn|].
  unfold process_document, bind.
  destruct (audit_write_event _ _ _ _ _ _ m) as [[u|e] m1]; [|reflexivity].
  unfold lift. rewrite Hn. reflexivity.
Qed.


